(** * BillRights: the document extraction pipeline

    A shallow embedding of the extraction service ([extractInvoiceData],
    [extractBusinessCardData]), of the two batch orchestrators
    ([InvoiceTab.processFiles], [BusinessCardTab.processFiles]) and of the
    clipboard export ([BusinessCardTab.getGoogleContactsText]), followed by
    the properties of the pipeline.

    Everything the program obtains from its host (file reads, the model
    call, [Math.random], [JSON.parse], [console.error]) is
    a field of a [Platform]; the program itself is written in a small state
    and exception monad over the platform's world. *)

From Stdlib Require Import String Ascii List Bool Arith QArith Lia Relations.
Import ListNotations.

Close Scope Q_scope.
Open Scope string_scope.
Open Scope list_scope.

Set Implicit Arguments.
Set Warnings "-register-all".

(* ================================================================== *)
(** * JavaScript values *)
(* ================================================================== *)

(** The values [JSON.parse] can return.  [undefined] is not one of them: a
    property read yields an [option JsValue], [None] standing for
    [undefined].  A number is carried as the rational it denotes. *)
Inductive JsValue : Type :=
| JNull
| JBool (b : bool)
| JNum (q : Q)
| JStr (s : string)
| JArr (items : list JsValue)
| JObj (props : list (string * JsValue)).

(** What a [throw] or a rejected promise carries. *)
Inductive JsError : Type :=
| Error (message : string)
| TypeError (message : string)
| SyntaxError (message : string)
| Rejection (reason : string).

(** The outcome of evaluating code that may throw. *)
Inductive Result (A : Type) : Type :=
| Ok (a : A)
| Throw (e : JsError).
Arguments Ok {A} a.
Arguments Throw {A} e.

(** Own-property lookup in an object's property list. *)
Fixpoint assoc (k : string) (props : list (string * JsValue)) : option JsValue :=
  match props with
  | [] => None
  | (k', v) :: rest => if String.eqb k k' then Some v else assoc k rest
  end.

(** [x ?? d]: the default replaces [undefined] and [null], nothing else. *)
Definition nullish (x : option JsValue) (d : JsValue) : JsValue :=
  match x with
  | None => d
  | Some JNull => d
  | Some v => v
  end.
Notation "x ?? d" := (nullish x d) (at level 45, no associativity).

(** [!text] for [text : string | undefined]. *)
Definition not_text (text : option string) : bool :=
  match text with
  | None => true
  | Some "" => true
  | Some _ => false
  end.

(** [s.split(sep)] for a one-character separator. *)
Fixpoint split (sep : ascii) (s : string) : list string :=
  match s with
  | EmptyString => [""]
  | String c rest =>
      if Ascii.eqb c sep then "" :: split sep rest
      else match split sep rest with
           | [] => [String c ""]
           | h :: t => String c h :: t
           end
  end.

(** [s.substr(start, length)] for non-negative arguments. *)
Definition substr (start len : nat) (s : string) : string :=
  String.substring start len s.

(** Truthiness, as [||] tests it. *)
Definition truthy (v : JsValue) : bool :=
  match v with
  | JNull => false
  | JBool b => b
  | JNum q => negb (Qeq_bool q 0)
  | JStr s => negb (String.eqb s "")
  | JArr _ => true
  | JObj _ => true
  end.

(* ================================================================== *)
(** * The state and exception monad *)
(* ================================================================== *)

(** A computation over a store [S] that returns or throws; the store
    survives a throw, as the heap and the outside world do. *)
Definition M (S A : Type) : Type := S -> Result A * S.

Definition ret {S A} (a : A) : M S A := fun s => (Ok a, s).

Definition bind {S A B} (m : M S A) (k : A -> M S B) : M S B :=
  fun s =>
    match m s with
    | (Ok a, s') => k a s'
    | (Throw e, s') => (Throw e, s')
    end.

Definition throw {S A} (e : JsError) : M S A := fun s => (Throw e, s).

(** [try { m } catch (e) { h e }] *)
Definition try_catch {S A} (m : M S A) (h : JsError -> M S A) : M S A :=
  fun s =>
    match m s with
    | (Ok a, s') => (Ok a, s')
    | (Throw e, s') => h e s'
    end.

Declare Scope js_scope.
Delimit Scope js_scope with js.
Notation "x <- m ;; k" := (bind m (fun x => k))
  (at level 61, m at next level, right associativity) : js_scope.
Notation "m ;; k" := (bind m (fun _ => k))
  (at level 61, right associativity) : js_scope.
Open Scope js_scope.

(** [for (const x of xs) { body x }] *)
Fixpoint for_of {S X} (xs : list X) (body : X -> M S unit) : M S unit :=
  match xs with
  | [] => ret tt
  | x :: rest => body x ;; for_of rest body
  end.

(** Run [m] on the first component of a pair store. *)
Definition lift_fst {W L A} (m : M W A) : M (W * L) A :=
  fun s =>
    let (r, w') := m (fst s) in (r, (w', snd s)).

(** [arr.push(x)] on the array held in the second component. *)
Definition push {W X} (x : X) : M (W * list X) unit :=
  fun s => (Ok tt, (fst s, snd s ++ [x])).

(** [const arr = []; m; ... arr ...]: run [m] with a fresh local array and
    hand the array back. *)
Definition with_array {W X} (m : M (W * list X) unit) : M W (list X) :=
  fun w =>
    match m (w, []) with
    | (Ok _, (w', arr)) => (Ok arr, w')
    | (Throw e, (w', _)) => (Throw e, w')
    end.

(** [data.k]: reading a property of [null] throws; the keys read by this
    program are own data properties of an object or absent. *)
Definition get_prop {S} (data : JsValue) (k : string) : M S (option JsValue) :=
  match data with
  | JNull => throw (TypeError "Cannot read properties of null")
  | JObj props => ret (assoc k props)
  | _ => ret None
  end.

(* ================================================================== *)
(** * The host platform *)
(* ================================================================== *)

Module File.
(** A browser [File]: its name, its declared media type, and a handle on
    its content, which only the platform can read. *)
Record t : Type := mk { name : string; type : string; blob : nat }.
End File.

(** The declarative response schema handed to the model. *)
Inductive SchemaType : Type := STRING | NUMBER | ARRAY | OBJECT.

Inductive Schema : Type :=
| mkSchema (type : SchemaType) (description : option string)
           (properties : list (string * Schema)) (items : option Schema)
           (required : list string).

Definition prim (t : SchemaType) (d : option string) : Schema :=
  mkSchema t d [] None [].

Record InlineData : Type := { data : option string; mimeType : string }.

Inductive Part : Type :=
| inlineData (d : InlineData)
| text_part (text : string).

Record Request : Type := {
  model : string;
  role : string;
  parts : list Part;
  responseMimeType : string;
  responseSchema : Schema
}.

Record Response : Type := { text : option string }.

(** What the browser and the model provider supply.  Each effectful
    operation takes the current world and returns the next one.
    - [readAsDataURL]: [FileReader.readAsDataURL], resolved with
      [reader.result] on load and rejected through [reader.onerror];
    - [generateContent]: [ai.models.generateContent];
    - [random_toString36]: the string [Math.random().toString(36)] of a
      fresh draw;
    - [JSON_parse]: [JSON.parse], [None] when it throws a [SyntaxError];
    - [console_error]: [console.error(message, err)]. *)
Record Platform : Type := {
  World : Type;
  readAsDataURL : File.t -> M World string;
  generateContent : Request -> M World Response;
  random_toString36 : World -> string * World;
  JSON_parse : string -> option JsValue;
  console_error : string -> JsError -> World -> World
}.

(* ================================================================== *)
(** * The extraction service *)
(* ================================================================== *)

Definition MODEL_NAME : string := "gemini-3-pro-preview".

Definition invoiceSchema : Schema :=
  mkSchema OBJECT None
    [ ("invoice_number", prim STRING (Some "The invoice number or identifier"));
      ("invoice_date", prim STRING (Some "The date of the invoice (YYYY-MM-DD preferred)"));
      ("supplier_name", prim STRING (Some "Name of the supplier or vendor"));
      ("supplier_tax_id", prim STRING (Some "Tax ID, VAT ID, or GST number of the supplier"));
      ("total_amount", prim NUMBER (Some "The total final amount of the invoice"));
      ("currency", prim STRING (Some "Currency code (e.g., USD, EUR)"));
      ("tax_amount", prim NUMBER (Some "Total tax amount (VAT/GST)"));
      ("line_items",
       mkSchema ARRAY (Some "List of items purchased") []
         (Some (mkSchema OBJECT None
                  [ ("description", prim STRING None);
                    ("quantity", prim NUMBER None);
                    ("unit_price", prim NUMBER None);
                    ("line_total", prim NUMBER None) ]
                  None
                  ["description"; "line_total"]))
         []) ]
    None
    ["supplier_name"; "total_amount"].

Definition businessCardSchema : Schema :=
  mkSchema OBJECT None
    [ ("full_name", prim STRING (Some "Full name of the person"));
      ("company", prim STRING (Some "Company name"));
      ("job_title", prim STRING (Some "Job title or role"));
      ("email", prim STRING (Some "Email address"));
      ("phone", prim STRING (Some "Phone number"));
      ("website", prim STRING (Some "Website URL"));
      ("address", prim STRING (Some "Physical address")) ]
    None
    ["full_name"].

(** The argument of [generateContent] in [extractInvoiceData]. *)
Definition invoiceRequest (filePart : InlineData) : Request :=
  {| model := MODEL_NAME;
     role := "user";
     parts := [ inlineData filePart;
                text_part "Extract the following invoice data from this document. Return JSON." ];
     responseMimeType := "application/json";
     responseSchema := invoiceSchema |}.

(** The argument of [generateContent] in [extractBusinessCardData]. *)
Definition businessCardRequest (filePart : InlineData) : Request :=
  {| model := MODEL_NAME;
     role := "user";
     parts := [ inlineData filePart;
                text_part "Extract contact details from this business card. Return JSON." ];
     responseMimeType := "application/json";
     responseSchema := businessCardSchema |}.

Section Service.
Context {P : Platform}.

(** [JSON.parse(text)] as a computation. *)
Definition JSON_parse_M (text : string) : M (World P) JsValue :=
  match JSON_parse P text with
  | Some v => ret v
  | None => throw (SyntaxError "Unexpected token in JSON")
  end.

Definition log_error (message : string) (err : JsError) : M (World P) unit :=
  fun w => (Ok tt, console_error P message err w).

Definition fileToGenerativePart (file : File.t) : M (World P) InlineData :=
  base64String <- readAsDataURL P file ;;
  let base64Content := nth_error (split "," base64String) 1 in
  ret {| data := base64Content; mimeType := File.type file |}.

Definition extractInvoiceData (file : File.t) : M (World P) JsValue :=
  filePart <- fileToGenerativePart file ;;
  response <- generateContent P (invoiceRequest filePart) ;;
  let text := text response in
  if not_text text then throw (Error "No data returned from model")
  else
    try_catch
      (JSON_parse_M (match text with Some t => t | None => "" end))
      (fun e =>
         log_error "Failed to parse JSON" e ;;
         throw (Error "Failed to parse model response")).

Definition extractBusinessCardData (file : File.t) : M (World P) JsValue :=
  filePart <- fileToGenerativePart file ;;
  response <- generateContent P (businessCardRequest filePart) ;;
  let text := text response in
  if not_text text then throw (Error "No data returned from model")
  else
    try_catch
      (JSON_parse_M (match text with Some t => t | None => "" end))
      (fun e =>
         log_error "Failed to parse JSON" e ;;
         throw (Error "Failed to parse model response")).

(** [Math.random().toString(36).substr(2, 9)] *)
Definition random_id : M (World P) string :=
  fun w => let (s, w') := random_toString36 P w in (Ok (substr 2 9 s), w').

End Service.

(* ================================================================== *)
(** * Record shapes *)
(* ================================================================== *)

(** Nothing checks a parsed response against the declared field types, so
    a record field holds whatever value the response carried there;
    [null] is [JNull], and [line_items] is the array value itself. *)
Module InvoiceData.
Record t : Type := mk {
  id : string;
  fileName : string;
  invoice_number : JsValue;
  invoice_date : JsValue;
  supplier_name : JsValue;
  supplier_tax_id : JsValue;
  total_amount : JsValue;
  currency : JsValue;
  tax_amount : JsValue;
  line_items : JsValue
}.
End InvoiceData.

Module BusinessCardData.
Record t : Type := mk {
  id : string;
  fileName : string;
  full_name : JsValue;
  company : JsValue;
  job_title : JsValue;
  email : JsValue;
  phone : JsValue;
  website : JsValue;
  address : JsValue
}.
End BusinessCardData.

Inductive ExtractionStatus : Type := idle | processing | success | error.

(* ================================================================== *)
(** * InvoiceTab *)
(* ================================================================== *)

Module InvoiceTab.

(** The component's state hooks. *)
Record State : Type := mkState {
  files : list File.t;
  invoices : list InvoiceData.t;
  status : ExtractionStatus;
  errorMsg : option string
}.

Definition initial : State :=
  {| files := []; invoices := []; status := idle; errorMsg := None |}.

Definition setFiles (v : list File.t) (st : State) : State :=
  {| files := v; invoices := invoices st; status := status st; errorMsg := errorMsg st |}.

Definition setInvoices (f : list InvoiceData.t -> list InvoiceData.t) (st : State) : State :=
  {| files := files st; invoices := f (invoices st); status := status st; errorMsg := errorMsg st |}.

Definition setStatus (v : ExtractionStatus) (st : State) : State :=
  {| files := files st; invoices := invoices st; status := v; errorMsg := errorMsg st |}.

Definition setErrorMsg (v : option string) (st : State) : State :=
  {| files := files st; invoices := invoices st; status := status st; errorMsg := v |}.

Definition handleFilesSelected (selectedFiles : list File.t) (st : State) : State :=
  setErrorMsg None (setFiles selectedFiles st).

(** The object literal bound to [invoice]: the properties are evaluated in
    the order written, [id] having been drawn before [data] is read. *)
Definition invoice {S} (id fileName : string) (data : JsValue) : M S InvoiceData.t :=
  invoice_number <- get_prop data "invoice_number" ;;
  invoice_date <- get_prop data "invoice_date" ;;
  supplier_name <- get_prop data "supplier_name" ;;
  supplier_tax_id <- get_prop data "supplier_tax_id" ;;
  total_amount <- get_prop data "total_amount" ;;
  currency <- get_prop data "currency" ;;
  tax_amount <- get_prop data "tax_amount" ;;
  line_items <- get_prop data "line_items" ;;
  ret {| InvoiceData.id := id;
         InvoiceData.fileName := fileName;
         InvoiceData.invoice_number := invoice_number ?? JNull;
         InvoiceData.invoice_date := invoice_date ?? JNull;
         InvoiceData.supplier_name := supplier_name ?? JStr "Unknown Supplier";
         InvoiceData.supplier_tax_id := supplier_tax_id ?? JNull;
         InvoiceData.total_amount := total_amount ?? JNum 0;
         InvoiceData.currency := currency ?? JStr "USD";
         InvoiceData.tax_amount := tax_amount ?? JNum 0;
         InvoiceData.line_items := line_items ?? JArr [] |}.

(** The object literal pushed in the [catch] block. *)
Definition placeholder (id fileName : string) : InvoiceData.t :=
  {| InvoiceData.id := id;
     InvoiceData.fileName := fileName;
     InvoiceData.invoice_number := JStr "ERROR";
     InvoiceData.invoice_date := JNull;
     InvoiceData.supplier_name := JStr "Extraction Failed";
     InvoiceData.supplier_tax_id := JNull;
     InvoiceData.total_amount := JNum 0;
     InvoiceData.currency := JStr "";
     InvoiceData.tax_amount := JNum 0;
     InvoiceData.line_items := JArr [] |}.

(** The body of the [for ... of] loop, over the world and [newInvoices]. *)
Definition iteration {P : Platform} (file : File.t)
  : M (World P * list InvoiceData.t) unit :=
  try_catch
    (data <- lift_fst (extractInvoiceData file) ;;
     id <- lift_fst random_id ;;
     inv <- invoice id (File.name file) data ;;
     push inv)
    (fun err =>
       lift_fst (log_error ("Error processing " ++ File.name file ++ ":") err) ;;
       id <- lift_fst random_id ;;
       push (placeholder id (File.name file))).

(** The state while the loop runs. *)
Definition processing_state (st : State) : State :=
  setErrorMsg None (setStatus processing st).

(** The state once the loop has filled [newInvoices]. *)
Definition completed_state (newInvoices : list InvoiceData.t) (st : State) : State :=
  setStatus success
    (setFiles [] (setInvoices (fun prev => prev ++ newInvoices) st)).

Definition processFiles {P : Platform} (st : State) : M (World P) State :=
  if (List.length (files st) =? 0)%nat then
    ret (setErrorMsg (Some "Please upload at least one invoice file first.") st)
  else
    let st := processing_state st in
    newInvoices <- with_array (for_of (files st) iteration) ;;
    ret (completed_state newInvoices st).

(** What the user and the scheduler can do to the component.  The upload
    area and the button are disabled while [status] is [processing]; the
    loop of a started run then completes from the state the run left. *)
Inductive step {P : Platform} : State * World P -> State * World P -> Prop :=
| step_select st w selectedFiles :
    status st <> processing ->
    step (st, w) (handleFilesSelected selectedFiles st, w)
| step_rejected st w :
    status st <> processing ->
    files st = [] ->
    step (st, w)
         (setErrorMsg (Some "Please upload at least one invoice file first.") st, w)
| step_started st w :
    status st <> processing ->
    files st <> [] ->
    step (st, w) (processing_state st, w)
| step_completed st w newInvoices w' :
    status st = processing ->
    with_array (for_of (files st) iteration) w = (Ok newInvoices, w') ->
    step (st, w) (completed_state newInvoices st, w').

Inductive reachable {P : Platform} : State * World P -> Prop :=
| reachable_initial w : reachable (initial, w)
| reachable_step c c' : reachable c -> step c c' -> reachable c'.

End InvoiceTab.

(* ================================================================== *)
(** * Conversion to strings *)
(* ================================================================== *)

(** [f] applied to the value of [r], an exception of [r] passing on. *)
Definition map_result {A B} (f : A -> B) (r : Result A) : Result B :=
  match r with
  | Ok a => Ok (f a)
  | Throw e => Throw e
  end.

(** [k] applied to the value of [r], an exception of [r] passing on. *)
Definition and_then {A B} (r : Result A) (k : A -> Result B) : Result B :=
  match r with
  | Ok a => k a
  | Throw e => Throw e
  end.

(** [callback] applied to every element, as [Array.prototype.map] does
    with a callback that may throw. *)
Fixpoint map_all {A B} (f : A -> Result B) (l : list A) : Result (list B) :=
  match l with
  | [] => Ok []
  | a :: rest =>
      match f a with
      | Throw e => Throw e
      | Ok b => map_result (cons b) (map_all f rest)
      end
  end.

(** [a || b] *)
Definition js_or (a b : JsValue) : JsValue := if truthy a then a else b.

(** [ToString], the conversion a template literal and
    [Array.prototype.join] apply to a value; how a number prints is the
    host's [Number.prototype.toString].  An array converts through
    [join(",")], in which [null] elements give the empty string.  A parsed
    object converts through [Object.prototype.toString], unless it has an
    own property named [toString]: that property is not callable,
    [valueOf] gives the object back, and the conversion throws. *)
Fixpoint to_string (Number_toString : Q -> string) (v : JsValue) : Result string :=
  match v with
  | JNull => Ok "null"
  | JBool true => Ok "true"
  | JBool false => Ok "false"
  | JNum q => Ok (Number_toString q)
  | JStr s => Ok s
  | JArr items =>
      map_result (String.concat ",")
        ((fix each (l : list JsValue) : Result (list string) :=
            match l with
            | [] => Ok []
            | x :: rest =>
                match (match x with
                       | JNull => Ok ""
                       | _ => to_string Number_toString x
                       end) with
                | Throw e => Throw e
                | Ok s => map_result (cons s) (each rest)
                end
            end) items)
  | JObj props =>
      match assoc "toString" props with
      | Some _ => Throw (TypeError "Cannot convert object to primitive value")
      | None => Ok "[object Object]"
      end
  end.

(** What follows the head of a template literal: each substitution
    converted in turn and followed by its literal text. *)
Fixpoint template_rest (Number_toString : Q -> string)
         (parts : list (JsValue * string)) : Result string :=
  match parts with
  | [] => Ok ""
  | (v, literal) :: more =>
      match to_string Number_toString v with
      | Throw e => Throw e
      | Ok t =>
          map_result (fun u => (t ++ literal ++ u)%string)
                     (template_rest Number_toString more)
      end
  end.

(** The template literal with the literal text [head] and then the
    substitutions [parts], each with the literal text after it. *)
Definition template (Number_toString : Q -> string) (head : string)
           (parts : list (JsValue * string)) : Result string :=
  map_result (fun u => (head ++ u)%string) (template_rest Number_toString parts).

(* ================================================================== *)
(** * BusinessCardTab *)
(* ================================================================== *)

(** The line feed character. *)
Definition LF : string := String "010"%char "".

Module BusinessCardTab.

Record State : Type := mkState {
  files : list File.t;
  cards : list BusinessCardData.t;
  status : ExtractionStatus;
  errorMsg : option string;
  copyFeedback : bool
}.

Definition initial : State :=
  {| files := []; cards := []; status := idle; errorMsg := None;
     copyFeedback := false |}.

Definition setFiles (v : list File.t) (st : State) : State :=
  {| files := v; cards := cards st; status := status st;
     errorMsg := errorMsg st; copyFeedback := copyFeedback st |}.

Definition setCards (f : list BusinessCardData.t -> list BusinessCardData.t) (st : State) : State :=
  {| files := files st; cards := f (cards st); status := status st;
     errorMsg := errorMsg st; copyFeedback := copyFeedback st |}.

Definition setStatus (v : ExtractionStatus) (st : State) : State :=
  {| files := files st; cards := cards st; status := v;
     errorMsg := errorMsg st; copyFeedback := copyFeedback st |}.

Definition setErrorMsg (v : option string) (st : State) : State :=
  {| files := files st; cards := cards st; status := status st;
     errorMsg := v; copyFeedback := copyFeedback st |}.

Definition setCopyFeedback (v : bool) (st : State) : State :=
  {| files := files st; cards := cards st; status := status st;
     errorMsg := errorMsg st; copyFeedback := v |}.

Definition handleFilesSelected (selectedFiles : list File.t) (st : State) : State :=
  setErrorMsg None (setFiles selectedFiles st).

(** The object literal bound to [card]. *)
Definition card {S} (id fileName : string) (data : JsValue) : M S BusinessCardData.t :=
  full_name <- get_prop data "full_name" ;;
  company <- get_prop data "company" ;;
  job_title <- get_prop data "job_title" ;;
  email <- get_prop data "email" ;;
  phone <- get_prop data "phone" ;;
  website <- get_prop data "website" ;;
  address <- get_prop data "address" ;;
  ret {| BusinessCardData.id := id;
         BusinessCardData.fileName := fileName;
         BusinessCardData.full_name := full_name ?? JStr "Unknown";
         BusinessCardData.company := company ?? JNull;
         BusinessCardData.job_title := job_title ?? JNull;
         BusinessCardData.email := email ?? JNull;
         BusinessCardData.phone := phone ?? JNull;
         BusinessCardData.website := website ?? JNull;
         BusinessCardData.address := address ?? JNull |}.

(** The object literal pushed in the [catch] block. *)
Definition placeholder (id fileName : string) : BusinessCardData.t :=
  {| BusinessCardData.id := id;
     BusinessCardData.fileName := fileName;
     BusinessCardData.full_name := JStr "Extraction Failed";
     BusinessCardData.company := JNull;
     BusinessCardData.job_title := JNull;
     BusinessCardData.email := JNull;
     BusinessCardData.phone := JNull;
     BusinessCardData.website := JNull;
     BusinessCardData.address := JNull |}.

(** The body of the [for ... of] loop, over the world and [newCards]. *)
Definition iteration {P : Platform} (file : File.t)
  : M (World P * list BusinessCardData.t) unit :=
  try_catch
    (data <- lift_fst (extractBusinessCardData file) ;;
     id <- lift_fst random_id ;;
     c <- card id (File.name file) data ;;
     push c)
    (fun err =>
       lift_fst (log_error ("Error processing " ++ File.name file ++ ":") err) ;;
       id <- lift_fst random_id ;;
       push (placeholder id (File.name file))).

Definition processing_state (st : State) : State :=
  setErrorMsg None (setStatus processing st).

Definition completed_state (newCards : list BusinessCardData.t) (st : State) : State :=
  setStatus success
    (setFiles [] (setCards (fun prev => prev ++ newCards) st)).

Definition processFiles {P : Platform} (st : State) : M (World P) State :=
  if (List.length (files st) =? 0)%nat then
    ret (setErrorMsg (Some "Please upload at least one business card.") st)
  else
    let st := processing_state st in
    newCards <- with_array (for_of (files st) iteration) ;;
    ret (completed_state newCards st).



(** [handleCopyToClipboard] raises [copyFeedback] and a timer lowers it;
    the rest is as in [InvoiceTab.step]. *)
Inductive step {P : Platform} : State * World P -> State * World P -> Prop :=
| step_select st w selectedFiles :
    status st <> processing ->
    step (st, w) (handleFilesSelected selectedFiles st, w)
| step_rejected st w :
    status st <> processing ->
    files st = [] ->
    step (st, w)
         (setErrorMsg (Some "Please upload at least one business card.") st, w)
| step_started st w :
    status st <> processing ->
    files st <> [] ->
    step (st, w) (processing_state st, w)
| step_completed st w newCards w' :
    status st = processing ->
    with_array (for_of (files st) iteration) w = (Ok newCards, w') ->
    step (st, w) (completed_state newCards st, w')
| step_copied st w :
    step (st, w) (setCopyFeedback true st, w)
| step_copy_expired st w :
    step (st, w) (setCopyFeedback false st, w).

Inductive reachable {P : Platform} : State * World P -> Prop :=
| reachable_initial w : reachable (initial, w)
| reachable_step c c' : reachable c -> step c c' -> reachable c'.

End BusinessCardTab.

(* ================================================================== *)
(** * The pipeline by document kind *)
(* ================================================================== *)

(** The two tabs run the same pipeline on two record shapes.  The
    definitions below select a tab's function by document kind, so that a
    property of both is stated once. *)
Inductive DocumentKind : Type := Invoice | BusinessCard.

Inductive NormalizedRecord : Type :=
| InvoiceRecord (r : InvoiceData.t)
| BusinessCardRecord (c : BusinessCardData.t).

Definition record_id (r : NormalizedRecord) : string :=
  match r with
  | InvoiceRecord r => InvoiceData.id r
  | BusinessCardRecord c => BusinessCardData.id c
  end.

Definition record_fileName (r : NormalizedRecord) : string :=
  match r with
  | InvoiceRecord r => InvoiceData.fileName r
  | BusinessCardRecord c => BusinessCardData.fileName c
  end.

(** [r[k]] for the extracted fields of a record. *)
Definition record_field (r : NormalizedRecord) (k : string) : option JsValue :=
  match r with
  | InvoiceRecord r =>
      if k =? "invoice_number" then Some (InvoiceData.invoice_number r)
      else if k =? "invoice_date" then Some (InvoiceData.invoice_date r)
      else if k =? "supplier_name" then Some (InvoiceData.supplier_name r)
      else if k =? "supplier_tax_id" then Some (InvoiceData.supplier_tax_id r)
      else if k =? "total_amount" then Some (InvoiceData.total_amount r)
      else if k =? "currency" then Some (InvoiceData.currency r)
      else if k =? "tax_amount" then Some (InvoiceData.tax_amount r)
      else if k =? "line_items" then Some (InvoiceData.line_items r)
      else None
  | BusinessCardRecord c =>
      if k =? "full_name" then Some (BusinessCardData.full_name c)
      else if k =? "company" then Some (BusinessCardData.company c)
      else if k =? "job_title" then Some (BusinessCardData.job_title c)
      else if k =? "email" then Some (BusinessCardData.email c)
      else if k =? "phone" then Some (BusinessCardData.phone c)
      else if k =? "website" then Some (BusinessCardData.website c)
      else if k =? "address" then Some (BusinessCardData.address c)
      else None
  end.

(** The extracted fields of each record shape, in declaration order. *)
Definition field_names (kind : DocumentKind) : list string :=
  match kind with
  | Invoice =>
      [ "invoice_number"; "invoice_date"; "supplier_name"; "supplier_tax_id";
        "total_amount"; "currency"; "tax_amount"; "line_items" ]
  | BusinessCard =>
      [ "full_name"; "company"; "job_title"; "email"; "phone"; "website";
        "address" ]
  end.

(** The extracted fields of a record as a mapping from field name to
    value, the shape a parsed response has. *)
Definition record_mapping (r : NormalizedRecord) : list (string * JsValue) :=
  match r with
  | InvoiceRecord r =>
      [ ("invoice_number", InvoiceData.invoice_number r);
        ("invoice_date", InvoiceData.invoice_date r);
        ("supplier_name", InvoiceData.supplier_name r);
        ("supplier_tax_id", InvoiceData.supplier_tax_id r);
        ("total_amount", InvoiceData.total_amount r);
        ("currency", InvoiceData.currency r);
        ("tax_amount", InvoiceData.tax_amount r);
        ("line_items", InvoiceData.line_items r) ]
  | BusinessCardRecord c =>
      [ ("full_name", BusinessCardData.full_name c);
        ("company", BusinessCardData.company c);
        ("job_title", BusinessCardData.job_title c);
        ("email", BusinessCardData.email c);
        ("phone", BusinessCardData.phone c);
        ("website", BusinessCardData.website c);
        ("address", BusinessCardData.address c) ]
  end.

(** The defaults as the specification documents them (section 4.5), to be
    compared with what the object literals substitute. *)
Definition documented_default (kind : DocumentKind) (k : string) : JsValue :=
  match kind with
  | Invoice =>
      if k =? "supplier_name" then JStr "Unknown Supplier"
      else if k =? "total_amount" then JNum 0
      else if k =? "currency" then JStr "USD"
      else if k =? "tax_amount" then JNum 0
      else if k =? "line_items" then JArr []
      else JNull
  | BusinessCard =>
      if k =? "full_name" then JStr "Unknown" else JNull
  end.

(** The extraction function of a kind. *)
Definition extract {P : Platform} (kind : DocumentKind) (file : File.t)
  : M (World P) JsValue :=
  match kind with
  | Invoice => extractInvoiceData file
  | BusinessCard => extractBusinessCardData file
  end.

(** The request a kind's extraction function sends. *)
Definition request_of (kind : DocumentKind) (filePart : InlineData) : Request :=
  match kind with
  | Invoice => invoiceRequest filePart
  | BusinessCard => businessCardRequest filePart
  end.

(** The value of a kind's success object literal; it touches no store. *)
Definition normalize (kind : DocumentKind) (id fileName : string) (raw : JsValue)
  : Result NormalizedRecord :=
  match kind with
  | Invoice =>
      map_result InvoiceRecord (fst (InvoiceTab.invoice id fileName raw tt))
  | BusinessCard =>
      map_result BusinessCardRecord (fst (BusinessCardTab.card id fileName raw tt))
  end.

(** A kind's failure placeholder. *)
Definition failure_placeholder (kind : DocumentKind) (id fileName : string)
  : NormalizedRecord :=
  match kind with
  | Invoice => InvoiceRecord (InvoiceTab.placeholder id fileName)
  | BusinessCard => BusinessCardRecord (BusinessCardTab.placeholder id fileName)
  end.




(** The message logged by a kind's [catch] block. *)
Definition failure_message (file : File.t) : string :=
  "Error processing " ++ File.name file ++ ":".

(** The loop of a kind's [processFiles] on a fresh array. *)
Definition run {P : Platform} (kind : DocumentKind) (files : list File.t)
  : M (World P) (list NormalizedRecord) :=
  match kind with
  | Invoice =>
      l <- with_array (for_of files InvoiceTab.iteration) ;;
      ret (map InvoiceRecord l)
  | BusinessCard =>
      l <- with_array (for_of files BusinessCardTab.iteration) ;;
      ret (map BusinessCardRecord l)
  end.

(* ================================================================== *)
(** * A scripted platform *)
(* ================================================================== *)

(** A platform whose model replies and random draws are read off a script,
    used to run the pipeline on concrete inputs. *)
Module Scripted.

Record world : Type := mkWorld {
  replies : list (Result Response);
  draws : list string;
  console : list (string * JsError)
}.

(** A file whose [blob] is [0] cannot be read. *)
Definition read (file : File.t) : M world string :=
  fun w =>
    if (File.blob file =? 0)%nat then (Throw (Rejection "NotReadableError"), w)
    else (Ok ("data:" ++ File.type file ++ ";base64,AAAA")%string, w).

Definition call (req : Request) : M world Response :=
  fun w =>
    match replies w with
    | [] => (Throw (Rejection "no scripted reply"), w)
    | r :: rest =>
        (r, {| replies := rest; draws := draws w; console := console w |})
    end.

Definition draw (w : world) : string * world :=
  match draws w with
  | [] => ("0", w)
  | s :: rest =>
      (s, {| replies := replies w; draws := rest; console := console w |})
  end.

Definition log (message : string) (err : JsError) (w : world) : world :=
  {| replies := replies w; draws := draws w;
     console := console w ++ [(message, err)] |}.

Definition quote : string := String "034"%char "".

(** The text [{"supplier_name":"Acme Co","total_amount":150.5}]. *)
Definition acme_text : string :=
  "{" ++ quote ++ "supplier_name" ++ quote ++ ":" ++ quote ++ "Acme Co" ++ quote
  ++ "," ++ quote ++ "total_amount" ++ quote ++ ":150.5}".

(** The text [{"full_name":"Jane Doe"}]. *)
Definition jane_text : string :=
  "{" ++ quote ++ "full_name" ++ quote ++ ":" ++ quote ++ "Jane Doe" ++ quote ++ "}".

Definition acme : JsValue :=
  JObj [("supplier_name", JStr "Acme Co"); ("total_amount", JNum 150.5)].

Definition jane : JsValue := JObj [("full_name", JStr "Jane Doe")].

(** A parser that knows the few texts the scripts use. *)
Definition parse (t : string) : option JsValue :=
  if t =? "{}" then Some (JObj [])
  else if t =? "null" then Some JNull
  else if t =? "[]" then Some (JArr [])
  else if t =? acme_text then Some acme
  else if t =? jane_text then Some jane
  else None.

Definition platform : Platform :=
  {| World := world;
     readAsDataURL := read;
     generateContent := call;
     random_toString36 := draw;
     JSON_parse := parse;
     console_error := log |}.

Definition pdf (name : string) : File.t :=
  {| File.name := name; File.type := "application/pdf"; File.blob := 1 |}.

Definition reply (t : string) : Result Response := Ok {| text := Some t |}.

(** A three-file queue and two scripts for it: in [mixed] the model call
    for the second file is rejected, in [all_ok] it answers. *)
Definition batch3 : list File.t :=
  [pdf "invoice1.pdf"; pdf "scan1.pdf"; pdf "invoice3.pdf"].

Definition mixed : world :=
  {| replies := [reply acme_text; Throw (Rejection "quota exceeded"); reply "{}"];
     draws := ["0.4fzyo82mvyr"; "0.k2j1x9"; "0.zz9qq1a2b3c4"];
     console := [] |}.


(** A script in which no call is answered and the draws are [0.5], [0.5]
    and [0]. *)
Definition colliding : world :=
  {| replies := []; draws := ["0.i"; "0.i"; "0"]; console := [] |}.

(** A mapping that supplies every field of a business card. *)
Definition complete_card : list (string * JsValue) :=
  [ ("full_name", JStr "Jane Doe"); ("company", JStr "Acme Co");
    ("job_title", JStr "Engineer"); ("email", JStr "jane@acme.example");
    ("phone", JStr "+1 555 0100"); ("website", JStr "acme.example");
    ("address", JStr "1 Main Street") ].

(** A script in which the model call is rejected, and the queue holding
    the one file it is about. *)
Definition failing : world :=
  {| replies := [Throw (Rejection "quota exceeded")];
     draws := ["0.k2j1x9"];
     console := [] |}.

Definition scan_queue : InvoiceTab.State :=
  InvoiceTab.mkState [pdf "scan1.pdf"] [] idle None.

(** A script in which the model answers with the empty object. *)
Definition terse : world :=
  {| replies := [reply "{}"]; draws := ["0.4fzyo82mvyr"]; console := [] |}.


Definition invoice_queue : InvoiceTab.State :=
  InvoiceTab.mkState batch3 [InvoiceTab.placeholder "old" "earlier.pdf"] idle None.

Definition card_queue : BusinessCardTab.State :=
  BusinessCardTab.mkState batch3 [BusinessCardTab.placeholder "old" "earlier.png"]
                          idle None false.

End Scripted.

(* ================================================================== *)
(** * Runs as traces *)
(* ================================================================== *)

(** [trace R files w recs w']: starting in world [w], the files were taken
    in order, each file [f] met in a world [wi] yielded exactly one record
    [r] and left a world [wi'] with [R f wi r wi'], and the last world is
    [w']. *)
Inductive trace {W X : Type} (R : File.t -> W -> X -> W -> Prop)
  : list File.t -> W -> list X -> W -> Prop :=
| trace_nil w : trace R [] w [] w
| trace_cons f files w r w1 recs w2 :
    R f w r w1 ->
    trace R files w1 recs w2 ->
    trace R (f :: files) w (r :: recs) w2.

(** What one iteration of a kind's loop can make of a file met in world
    [w]: the normalized record of the extracted data, or the placeholder,
    either because extraction threw or because reading the data did. *)
Inductive produced {P : Platform} (kind : DocumentKind) (f : File.t)
  : World P -> NormalizedRecord -> World P -> Prop :=
| produced_record w raw w1 s w2 r :
    extract kind f w = (Ok raw, w1) ->
    random_toString36 P w1 = (s, w2) ->
    normalize kind (substr 2 9 s) (File.name f) raw = Ok r ->
    produced kind f w r w2
| produced_extract_failed w e w1 s w2 :
    extract kind f w = (Throw e, w1) ->
    random_toString36 P (console_error P (failure_message f) e w1) = (s, w2) ->
    produced kind f w
      (failure_placeholder kind (substr 2 9 s) (File.name f)) w2
| produced_read_failed w raw w1 s0 w2 e s w3 :
    extract kind f w = (Ok raw, w1) ->
    random_toString36 P w1 = (s0, w2) ->
    normalize kind (substr 2 9 s0) (File.name f) raw = Throw e ->
    random_toString36 P (console_error P (failure_message f) e w2) = (s, w3) ->
    produced kind f w
      (failure_placeholder kind (substr 2 9 s) (File.name f)) w3.

(** [c] occurs in [s]. *)
Fixpoint occurs (c : ascii) (s : string) : bool :=
  match s with
  | EmptyString => false
  | String c' rest => Ascii.eqb c' c || occurs c rest
  end.

(** The conversion of [v || ''] in a line of the clipboard text. *)
Definition rendered (Number_toString : Q -> string) (v : JsValue) : Result string :=
  to_string Number_toString (js_or v (JStr "")).

(** A value of the declared type [string | null], and the text it has in
    an export: the string itself, nothing for [null]. *)
Definition is_text (v : JsValue) : bool :=
  match v with
  | JNull => true
  | JStr _ => true
  | _ => false
  end.

Definition field_text (v : JsValue) : string :=
  match v with
  | JStr s => s
  | _ => ""
  end.

(** A value of the declared type [number | null]. *)
Definition is_amount (v : JsValue) : bool :=
  match v with
  | JNull => true
  | JNum _ => true
  | _ => false
  end.

(** The world in which the iteration for [f], started in [w], makes the
    draw that gives the record its identifier: after the extraction when
    the record is built, after the error is logged when the placeholder
    is. *)
Definition id_draw_world {P : Platform} (kind : DocumentKind) (f : File.t)
           (w : World P) : World P :=
  match extract kind f w with
  | (Throw e, w1) => console_error P (failure_message f) e w1
  | (Ok raw, w1) =>
      let (s0, w2) := random_toString36 P w1 in
      match normalize kind (substr 2 9 s0) (File.name f) raw with
      | Ok _ => w1
      | Throw e => console_error P (failure_message f) e w2
      end
  end.

(** The base-36 strings of these draws along a run, one per file, each
    file starting in the world the draw before it left. *)
Fixpoint id_draws {P : Platform} (kind : DocumentKind) (files : list File.t)
         (w : World P) : list string :=
  match files with
  | [] => []
  | f :: rest =>
      let (s, w') := random_toString36 P (id_draw_world kind f w) in
      s :: id_draws kind rest w'
  end.


(* ================================================================== *)
(** * UploadArea *)
(* ================================================================== *)

Module UploadArea.

(** The props of the component; [disabled] is optional. *)
Record Props (S : Type) : Type := {
  onFilesSelected : list File.t -> S -> S;
  disabled : option bool;
  label : string
}.

(** The truthiness of [disabled], which guards the click handler and
    disables the file input. *)
Definition is_disabled {S} (props : Props S) : bool :=
  match disabled props with
  | Some b => b
  | None => false
  end.

(** [handleFileChange], on the owner's state [s] and the input's value:
    [target_files] is [event.target.files], [None] when it is [null]. *)
Definition handleFileChange {S} (props : Props S)
           (target_files : option (list File.t)) (target_value : string) (s : S)
  : S * string :=
  match target_files with
  | Some selected =>
      if (0 <? List.length selected)%nat
      then (onFilesSelected props selected s, "")
      else (s, target_value)
  | None => (s, target_value)
  end.

End UploadArea.

(** [status === 'processing'] *)
Definition is_processing (s : ExtractionStatus) : bool :=
  match s with
  | processing => true
  | _ => false
  end.

(** The double quote character. *)
Definition DQ : string := String "034"%char "".

(** The UTF-16 code units of the character a byte of a UTF-8 string
    starts: none for a continuation byte, two for the lead byte of a
    four-byte sequence, one otherwise. *)
Definition utf16_units (c : ascii) : nat :=
  let n := nat_of_ascii c in
  if (n <? 128)%nat then 1
  else if (n <? 192)%nat then 0
  else if (n <? 240)%nat then 1
  else 2.

(** [s.length] for a string held as its UTF-8 bytes. *)
Fixpoint utf16_length (s : string) : nat :=
  match s with
  | EmptyString => 0
  | String c rest => utf16_units c + utf16_length rest
  end.

(** [v.length] *)
Definition length_of (v : JsValue) : Result (option JsValue) :=
  match v with
  | JNull => Throw (TypeError "Cannot read properties of null")
  | JArr items => Ok (Some (JNum (inject_Z (Z.of_nat (List.length items)))))
  | JStr s => Ok (Some (JNum (inject_Z (Z.of_nat (utf16_length s)))))
  | JObj props => Ok (assoc "length" props)
  | _ => Ok None
  end.

(** The string an element contributes to [cells.join(sep)]: [undefined]
    and [null] contribute the empty string. *)
Definition cell_string (Number_toString : Q -> string) (x : option JsValue)
  : Result string :=
  match x with
  | None => Ok ""
  | Some JNull => Ok ""
  | Some v => to_string Number_toString v
  end.

(** [cells.join(sep)] *)
Definition join (Number_toString : Q -> string) (sep : string)
           (cells : list (option JsValue)) : Result string :=
  map_result (String.concat sep) (map_all (cell_string Number_toString) cells).

(** The names of the properties a schema declares, its required names and
    its item schema. *)
Definition property_names (s : Schema) : list string :=
  match s with
  | mkSchema _ _ properties _ _ => map fst properties
  end.

Definition required_names (s : Schema) : list string :=
  match s with
  | mkSchema _ _ _ _ required => required
  end.

Definition items_schema (s : Schema) : option Schema :=
  match s with
  | mkSchema _ _ _ items _ => items
  end.

Definition property_schema (s : Schema) (k : string) : option Schema :=
  match s with
  | mkSchema _ _ properties _ _ =>
      (fix find (l : list (string * Schema)) : option Schema :=
         match l with
         | [] => None
         | (k', s') :: rest => if String.eqb k k' then Some s' else find rest
         end) properties
  end.

(** The response schema a kind's request carries. *)
Definition schema_of (kind : DocumentKind) : Schema :=
  responseSchema (request_of kind {| data := None; mimeType := "" |}).

(* ================================================================== *)
(** * InvoiceTab: the rendered controls and the CSV export *)
(* ================================================================== *)

Module InvoiceTabView.

(** The [<UploadArea>] element of the render. *)
Definition uploadArea (st : InvoiceTab.State) : UploadArea.Props InvoiceTab.State :=
  {| UploadArea.onFilesSelected := InvoiceTab.handleFilesSelected;
     UploadArea.disabled := Some (is_processing (InvoiceTab.status st));
     UploadArea.label := "Drop invoices here (PDF, JPG, PNG)" |}.

(** [files.length > 0 && (...)]: whether the Extract Data button is
    rendered, and its [disabled] attribute. *)
Definition shows_extract_button (st : InvoiceTab.State) : bool :=
  (0 <? List.length (InvoiceTab.files st))%nat.

Definition extract_button_disabled (st : InvoiceTab.State) : bool :=
  is_processing (InvoiceTab.status st).

(** The state after the synchronous start of [processFiles], before its
    first [await]. *)
Definition processFiles_started (st : InvoiceTab.State) : InvoiceTab.State :=
  if (List.length (InvoiceTab.files st) =? 0)%nat then
    InvoiceTab.setErrorMsg (Some "Please upload at least one invoice file first.") st
  else InvoiceTab.processing_state st.

(** What can happen to the rendered component: a change event of the
    upload area's input while it is enabled, a click on the Extract Data
    button while it is rendered and enabled, and the completion of the
    loop of a started run. *)
Inductive ui_step {P : Platform}
  : InvoiceTab.State * World P -> InvoiceTab.State * World P -> Prop :=
| ui_files_changed st w target_files target_value :
    UploadArea.is_disabled (uploadArea st) = false ->
    ui_step (st, w)
            (fst (UploadArea.handleFileChange (uploadArea st)
                    target_files target_value st), w)
| ui_extract_clicked st w :
    shows_extract_button st = true ->
    extract_button_disabled st = false ->
    ui_step (st, w) (processFiles_started st, w)
| ui_completed st w newInvoices w' :
    InvoiceTab.status st = processing ->
    with_array (for_of (InvoiceTab.files st) InvoiceTab.iteration) w
    = (Ok newInvoices, w') ->
    ui_step (st, w) (InvoiceTab.completed_state newInvoices st, w').

Inductive ui_reachable {P : Platform} : InvoiceTab.State * World P -> Prop :=
| ui_reachable_initial w : ui_reachable (InvoiceTab.initial, w)
| ui_reachable_step c c' : ui_reachable c -> ui_step c c' -> ui_reachable c'.

(** The [headers] of the CSV. *)
Definition headers : list string :=
  [ "Invoice #"; "Date"; "Supplier"; "Tax ID"; "Total"; "Currency"; "Tax";
    "Line Items Count" ].

(** The array the [map] callback of [rows] returns for an invoice; its
    elements are evaluated in order, the template literal before
    [line_items.length]. *)
Definition row (Number_toString : Q -> string) (inv : InvoiceData.t)
  : Result (list (option JsValue)) :=
  and_then
    (template Number_toString DQ
       [(js_or (InvoiceData.supplier_name inv) (JStr ""), DQ)])
    (fun supplier =>
       map_result
         (fun line_items_length =>
            [ Some (js_or (InvoiceData.invoice_number inv) (JStr ""));
              Some (js_or (InvoiceData.invoice_date inv) (JStr ""));
              Some (JStr supplier);
              Some (js_or (InvoiceData.supplier_tax_id inv) (JStr ""));
              Some (js_or (InvoiceData.total_amount inv) (JNum 0));
              Some (js_or (InvoiceData.currency inv) (JStr ""));
              Some (js_or (InvoiceData.tax_amount inv) (JNum 0));
              line_items_length ])
         (length_of (InvoiceData.line_items inv))).

(** The header line, [headers.join(",")]. *)
Definition header_line : string := String.concat "," headers.

(** [csvContent] for the computed [rows]. *)
Definition csvContent (Number_toString : Q -> string)
           (rows : list (list (option JsValue))) : Result string :=
  map_result (fun lines => String.concat LF (header_line :: lines))
             (map_all (join Number_toString ",") rows).

(** What the created link downloads: the blob's text and type, and the
    [download] attribute. *)
Record Download : Type := {
  blob_text : string;
  blob_type : string;
  download : string
}.

(** [handleDownloadCSV]: [None] when it returns without downloading. *)
Definition handleDownloadCSV (Number_toString : Q -> string) (st : InvoiceTab.State)
  : Result (option Download) :=
  if (List.length (InvoiceTab.invoices st) =? 0)%nat then Ok None
  else
    and_then (map_all (row Number_toString) (InvoiceTab.invoices st))
      (fun rows =>
         map_result
           (fun csv =>
              Some {| blob_text := csv;
                      blob_type := "text/csv;charset=utf-8;";
                      download := "extracted_invoices.csv" |})
           (csvContent Number_toString rows)).

(** An invoice whose fields have the types the interface declares:
    strings or [null], numbers or [null], an array of line items. *)
Definition declared_types (inv : InvoiceData.t) : bool :=
  is_text (InvoiceData.invoice_number inv) &&
  is_text (InvoiceData.invoice_date inv) &&
  is_text (InvoiceData.supplier_name inv) &&
  is_text (InvoiceData.supplier_tax_id inv) &&
  is_amount (InvoiceData.total_amount inv) &&
  is_text (InvoiceData.currency inv) &&
  is_amount (InvoiceData.tax_amount inv) &&
  match InvoiceData.line_items inv with
  | JArr _ => true
  | _ => false
  end.

(** The values the code never leaves [null] in an invoice it makes. *)
Definition well_formed (inv : InvoiceData.t) : Prop :=
  InvoiceData.supplier_name inv <> JNull /\
  InvoiceData.total_amount inv <> JNull /\
  InvoiceData.currency inv <> JNull /\
  InvoiceData.tax_amount inv <> JNull /\
  InvoiceData.line_items inv <> JNull /\
  String.length (InvoiceData.id inv) <= 9.

End InvoiceTabView.

(* ================================================================== *)
(** * BusinessCardTab: the rendered controls *)
(* ================================================================== *)

Module BusinessCardTabView.

Definition uploadArea (st : BusinessCardTab.State)
  : UploadArea.Props BusinessCardTab.State :=
  {| UploadArea.onFilesSelected := BusinessCardTab.handleFilesSelected;
     UploadArea.disabled := Some (is_processing (BusinessCardTab.status st));
     UploadArea.label := "Drop business card images here" |}.

Definition shows_extract_button (st : BusinessCardTab.State) : bool :=
  (0 <? List.length (BusinessCardTab.files st))%nat.

Definition extract_button_disabled (st : BusinessCardTab.State) : bool :=
  is_processing (BusinessCardTab.status st).

(** The copy panel is rendered with the results. *)
Definition shows_results (st : BusinessCardTab.State) : bool :=
  (0 <? List.length (BusinessCardTab.cards st))%nat.

Definition processFiles_started (st : BusinessCardTab.State) : BusinessCardTab.State :=
  if (List.length (BusinessCardTab.files st) =? 0)%nat then
    BusinessCardTab.setErrorMsg (Some "Please upload at least one business card.") st
  else BusinessCardTab.processing_state st.

(** As [InvoiceTabView.ui_step], with the copy button of the results
    panel: a resolved [writeText] raises [copyFeedback] and the timer it
    sets lowers it. *)
Inductive ui_step {P : Platform}
  : BusinessCardTab.State * World P -> BusinessCardTab.State * World P -> Prop :=
| ui_files_changed st w target_files target_value :
    UploadArea.is_disabled (uploadArea st) = false ->
    ui_step (st, w)
            (fst (UploadArea.handleFileChange (uploadArea st)
                    target_files target_value st), w)
| ui_extract_clicked st w :
    shows_extract_button st = true ->
    extract_button_disabled st = false ->
    ui_step (st, w) (processFiles_started st, w)
| ui_completed st w newCards w' :
    BusinessCardTab.status st = processing ->
    with_array (for_of (BusinessCardTab.files st) BusinessCardTab.iteration) w
    = (Ok newCards, w') ->
    ui_step (st, w) (BusinessCardTab.completed_state newCards st, w')
| ui_copied st w :
    shows_results st = true ->
    ui_step (st, w) (BusinessCardTab.setCopyFeedback true st, w)
| ui_copy_expired st w :
    ui_step (st, w) (BusinessCardTab.setCopyFeedback false st, w).

Inductive ui_reachable {P : Platform} : BusinessCardTab.State * World P -> Prop :=
| ui_reachable_initial w : ui_reachable (BusinessCardTab.initial, w)
| ui_reachable_step c c' : ui_reachable c -> ui_step c c' -> ui_reachable c'.

End BusinessCardTabView.

(** The values the code never leaves [null] in a record it makes, for
    either shape. *)
Definition record_well_formed (r : NormalizedRecord) : Prop :=
  match r with
  | InvoiceRecord inv => InvoiceTabView.well_formed inv
  | BusinessCardRecord c =>
      BusinessCardData.full_name c <> JNull /\
      String.length (BusinessCardData.id c) <= 9
  end.

(** Inputs for concrete runs of the added definitions. *)
Module Samples.

(** A file the scripted platform cannot read. *)
Definition unreadable : File.t :=
  {| File.name := "torn.png"; File.type := "image/png"; File.blob := 0 |}.

(** A script in which the model answers with the text [null]. *)
Definition null_answer : Scripted.world :=
  {| Scripted.replies := [Scripted.reply "null"];
     Scripted.draws := ["0.4fzyo82mvyr"; "0.k2j1x9"];
     Scripted.console := [] |}.

(** A mapping with the Acme fields and two fields no schema declares. *)
Definition acme_with_extras : list (string * JsValue) :=
  [ ("confidence", JNum 1); ("supplier_name", JStr "Acme Co");
    ("notes", JStr "paid"); ("total_amount", JNum 150.5) ].

Definition acme_props : list (string * JsValue) :=
  [ ("supplier_name", JStr "Acme Co"); ("total_amount", JNum 150.5) ].

(** Two invoices as [processFiles] makes them, the second a failure
    placeholder. *)
Definition two_invoices : InvoiceTab.State :=
  InvoiceTab.mkState []
    [ {| InvoiceData.id := "4fzyo82mv";
         InvoiceData.fileName := "invoice1.pdf";
         InvoiceData.invoice_number := JStr "INV-7";
         InvoiceData.invoice_date := JNull;
         InvoiceData.supplier_name := JStr "Acme Co";
         InvoiceData.supplier_tax_id := JNull;
         InvoiceData.total_amount := JNum 150.5;
         InvoiceData.currency := JStr "USD";
         InvoiceData.tax_amount := JNum 0;
         InvoiceData.line_items := JArr [] |};
      InvoiceTab.placeholder "k2j1x9" "scan1.pdf" ]
    success None.

(** The state and world a run over [Scripted.batch3] in the script
    [Scripted.mixed] ends in, started from the initial state. *)
Definition after_mixed : InvoiceTab.State * Scripted.world :=
  Eval vm_compute in
    match InvoiceTab.processFiles (P := Scripted.platform)
            (InvoiceTab.handleFilesSelected Scripted.batch3 InvoiceTab.initial)
            Scripted.mixed with
    | (Ok st, w) => (st, w)
    | (Throw _, w) => (InvoiceTab.initial, w)
    end.

(** A number printer that knows the numbers of the samples. *)
Definition print_number (q : Q) : string :=
  if Qeq_bool q 0 then "0"
  else if Qeq_bool q 150.5 then "150.5"
  else "1".



(** What the export of [two_invoices] downloads. *)
Definition two_invoices_csv : InvoiceTabView.Download :=
  Eval vm_compute in
    match InvoiceTabView.handleDownloadCSV print_number two_invoices with
    | Ok (Some file) => file
    | _ => {| InvoiceTabView.blob_text := "";
              InvoiceTabView.blob_type := "";
              InvoiceTabView.download := "" |}
    end.

End Samples.

(* ================================================================== *)
(** * Properties *)
(* ================================================================== *)

(** ** The monad *)

Lemma bind_Ok {S A B} (m : M S A) (k : A -> M S B) s a s' :
  m s = (Ok a, s') -> bind m k s = k a s'.
Proof. intros H. unfold bind. rewrite H. reflexivity. Qed.

Lemma bind_Throw {S A B} (m : M S A) (k : A -> M S B) s e s' :
  m s = (Throw e, s') -> bind m k s = (Throw e, s').
Proof. intros H. unfold bind. rewrite H. reflexivity. Qed.

Lemma try_catch_Ok {S A} (m : M S A) h s a s' :
  m s = (Ok a, s') -> try_catch m h s = (Ok a, s').
Proof. intros H. unfold try_catch. rewrite H. reflexivity. Qed.

Lemma try_catch_Throw {S A} (m : M S A) h s e s' :
  m s = (Throw e, s') -> try_catch m h s = h e s'.
Proof. intros H. unfold try_catch. rewrite H. reflexivity. Qed.

Lemma lift_fst_run {W L A} (m : M W A) (w : W) (l : L) r w' :
  m w = (r, w') -> lift_fst m (w, l) = (r, (w', l)).
Proof. intros H. unfold lift_fst. simpl. rewrite H. reflexivity. Qed.

(** ** Traces *)

Lemma trace_impl {W X} (R R' : File.t -> W -> X -> W -> Prop) :
  (forall f w r w', R f w r w' -> R' f w r w') ->
  forall files w recs w', trace R files w recs w' -> trace R' files w recs w'.
Proof.
  intros HR files w recs w' H.
  induction H as [w | f files w r w1 recs w2 Hr _ IH].
  - apply trace_nil.
  - apply trace_cons with (w1 := w1); auto.
Qed.

Lemma trace_map {W X Y} (g : X -> Y) (R : File.t -> W -> Y -> W -> Prop)
      files w recs w' :
  trace (fun f w r w' => R f w (g r) w') files w recs w' ->
  trace R files w (map g recs) w'.
Proof.
  intros H.
  induction H as [w | f files w r w1 recs w2 Hr _ IH]; simpl.
  - apply trace_nil.
  - apply trace_cons with (w1 := w1); auto.
Qed.

Lemma trace_length {W X} (R : File.t -> W -> X -> W -> Prop) files w recs w' :
  trace R files w recs w' -> List.length recs = List.length files.
Proof. intros H. induction H; simpl; congruence. Qed.

Lemma trace_Forall2 {W X} (R : File.t -> W -> X -> W -> Prop) (Q : File.t -> X -> Prop) :
  (forall f w r w', R f w r w' -> Q f r) ->
  forall files w recs w', trace R files w recs w' -> Forall2 Q files recs.
Proof.
  intros HR files w recs w' H.
  induction H as [w | f files w r w1 recs w2 Hr _ IH].
  - apply Forall2_nil.
  - apply Forall2_cons; eauto.
Qed.

Lemma Forall2_nth_error {A B} (Q : A -> B -> Prop) l l' :
  Forall2 Q l l' ->
  forall i a, nth_error l i = Some a ->
              exists b, nth_error l' i = Some b /\ Q a b.
Proof.
  induction 1 as [|x y l l' Hxy _ IH]; intros i a Hi.
  - destruct i; discriminate.
  - destruct i as [|i]; simpl in *.
    + injection Hi as <-. eauto.
    + eauto.
Qed.

(** A loop whose body appends exactly one element per file appends one
    element per file, in order, and does not throw. *)
Section Loop.
Variables (W X : Type).
Variable body : File.t -> M (W * list X) unit.
Variable R : File.t -> W -> X -> W -> Prop.
Hypothesis body_appends :
  forall f w arr, exists r w',
    body f (w, arr) = (Ok tt, (w', arr ++ [r])) /\ R f w r w'.

Lemma for_of_appends files :
  forall w arr, exists recs w',
    for_of files body (w, arr) = (Ok tt, (w', arr ++ recs)) /\
    trace R files w recs w'.
Proof.
  induction files as [|f files IH]; intros w arr; simpl.
  - exists [], w. rewrite app_nil_r. split; [reflexivity | apply trace_nil].
  - destruct (body_appends f w arr) as (r & w1 & Hb & Hr).
    destruct (IH w1 (arr ++ [r])) as (recs & w2 & Hl & Ht).
    exists (r :: recs), w2. split.
    + rewrite (bind_Ok _ _ _ Hb). rewrite Hl. rewrite <- app_assoc. reflexivity.
    + apply trace_cons with (w1 := w1); assumption.
Qed.

Lemma with_array_for_of files w :
  exists recs w',
    with_array (for_of files body) w = (Ok recs, w') /\
    trace R files w recs w'.
Proof.
  destruct (for_of_appends files w []) as (recs & w' & Hl & Ht).
  exists recs, w'. split; [|exact Ht].
  unfold with_array. rewrite Hl. reflexivity.
Qed.

End Loop.

(** ** One iteration *)

(** The success literals read [data] and nothing else. *)
Lemma invoice_pure {S} id fileName raw (s : S) :
  InvoiceTab.invoice id fileName raw s
  = (fst (InvoiceTab.invoice id fileName raw tt), s).
Proof. destruct raw; reflexivity. Qed.

Lemma card_pure {S} id fileName raw (s : S) :
  BusinessCardTab.card id fileName raw s
  = (fst (BusinessCardTab.card id fileName raw tt), s).
Proof. destruct raw; reflexivity. Qed.

Lemma random_id_run {P : Platform} (w : World P) s w' :
  random_toString36 P w = (s, w') -> random_id w = (Ok (substr 2 9 s), w').
Proof. intros H. unfold random_id. rewrite H. reflexivity. Qed.

Lemma log_error_run {P : Platform} message err (w : World P) :
  log_error message err w = (Ok tt, console_error P message err w).
Proof. reflexivity. Qed.

(** The [catch] block appends the placeholder and does not throw. *)
Lemma invoice_catch_run {P : Platform} f e (w : World P) arr s w' :
  random_toString36 P (console_error P (failure_message f) e w) = (s, w') ->
  (lift_fst (log_error ("Error processing " ++ File.name f ++ ":") e) ;;
   id <- lift_fst random_id ;;
   push (InvoiceTab.placeholder id (File.name f))) (w, arr)
  = (Ok tt, (w', arr ++ [InvoiceTab.placeholder (substr 2 9 s) (File.name f)])).
Proof.
  intros Hs.
  rewrite (bind_Ok _ _ _ (lift_fst_run _ _ arr (log_error_run _ e w))).
  rewrite (bind_Ok _ _ _ (lift_fst_run _ _ arr (random_id_run _ Hs))).
  reflexivity.
Qed.

Lemma card_catch_run {P : Platform} f e (w : World P) arr s w' :
  random_toString36 P (console_error P (failure_message f) e w) = (s, w') ->
  (lift_fst (log_error ("Error processing " ++ File.name f ++ ":") e) ;;
   id <- lift_fst random_id ;;
   push (BusinessCardTab.placeholder id (File.name f))) (w, arr)
  = (Ok tt, (w', arr ++ [BusinessCardTab.placeholder (substr 2 9 s) (File.name f)])).
Proof.
  intros Hs.
  rewrite (bind_Ok _ _ _ (lift_fst_run _ _ arr (log_error_run _ e w))).
  rewrite (bind_Ok _ _ _ (lift_fst_run _ _ arr (random_id_run _ Hs))).
  reflexivity.
Qed.

Lemma invoice_iteration_produced {P : Platform} f (w : World P) arr :
  exists r w',
    InvoiceTab.iteration f (w, arr) = (Ok tt, (w', arr ++ [r])) /\
    produced Invoice f w (InvoiceRecord r) w'.
Proof.
  unfold InvoiceTab.iteration.
  destruct (extractInvoiceData f w) as [[raw|e] w1] eqn:He.
  - destruct (random_toString36 P w1) as [s w2] eqn:Hs.
    pose proof (invoice_pure (substr 2 9 s) (File.name f) raw (w2, arr)) as Hp.
    destruct (fst (InvoiceTab.invoice (substr 2 9 s) (File.name f) raw tt))
      as [r|e] eqn:Hn.
    + exists r, w2. split.
      * apply try_catch_Ok.
        rewrite (bind_Ok _ _ _ (lift_fst_run _ _ arr He)).
        rewrite (bind_Ok _ _ _ (lift_fst_run _ _ arr (random_id_run _ Hs))).
        rewrite (bind_Ok _ _ _ Hp).
        reflexivity.
      * eapply produced_record; [exact He | exact Hs |].
        simpl. rewrite Hn. reflexivity.
    + destruct (random_toString36 P (console_error P (failure_message f) e w2))
        as [s' w3] eqn:Hs'.
      exists (InvoiceTab.placeholder (substr 2 9 s') (File.name f)), w3. split.
      * rewrite try_catch_Throw with (e := e) (s' := (w2, arr)).
        -- apply invoice_catch_run. exact Hs'.
        -- rewrite (bind_Ok _ _ _ (lift_fst_run _ _ arr He)).
           rewrite (bind_Ok _ _ _ (lift_fst_run _ _ arr (random_id_run _ Hs))).
           rewrite (bind_Throw _ _ _ Hp).
           reflexivity.
      * eapply (produced_read_failed Invoice f); [exact He | exact Hs | | exact Hs'].
        simpl. rewrite Hn. reflexivity.
  - destruct (random_toString36 P (console_error P (failure_message f) e w1))
      as [s w2] eqn:Hs.
    exists (InvoiceTab.placeholder (substr 2 9 s) (File.name f)), w2. split.
    + rewrite try_catch_Throw with (e := e) (s' := (w1, arr)).
      * apply invoice_catch_run. exact Hs.
      * rewrite (bind_Throw _ _ _ (lift_fst_run _ _ arr He)). reflexivity.
    + eapply (produced_extract_failed Invoice f); [exact He | exact Hs].
Qed.

Lemma card_iteration_produced {P : Platform} f (w : World P) arr :
  exists r w',
    BusinessCardTab.iteration f (w, arr) = (Ok tt, (w', arr ++ [r])) /\
    produced BusinessCard f w (BusinessCardRecord r) w'.
Proof.
  unfold BusinessCardTab.iteration.
  destruct (extractBusinessCardData f w) as [[raw|e] w1] eqn:He.
  - destruct (random_toString36 P w1) as [s w2] eqn:Hs.
    pose proof (card_pure (substr 2 9 s) (File.name f) raw (w2, arr)) as Hp.
    destruct (fst (BusinessCardTab.card (substr 2 9 s) (File.name f) raw tt))
      as [r|e] eqn:Hn.
    + exists r, w2. split.
      * apply try_catch_Ok.
        rewrite (bind_Ok _ _ _ (lift_fst_run _ _ arr He)).
        rewrite (bind_Ok _ _ _ (lift_fst_run _ _ arr (random_id_run _ Hs))).
        rewrite (bind_Ok _ _ _ Hp).
        reflexivity.
      * eapply produced_record; [exact He | exact Hs |].
        simpl. rewrite Hn. reflexivity.
    + destruct (random_toString36 P (console_error P (failure_message f) e w2))
        as [s' w3] eqn:Hs'.
      exists (BusinessCardTab.placeholder (substr 2 9 s') (File.name f)), w3. split.
      * rewrite try_catch_Throw with (e := e) (s' := (w2, arr)).
        -- apply card_catch_run. exact Hs'.
        -- rewrite (bind_Ok _ _ _ (lift_fst_run _ _ arr He)).
           rewrite (bind_Ok _ _ _ (lift_fst_run _ _ arr (random_id_run _ Hs))).
           rewrite (bind_Throw _ _ _ Hp).
           reflexivity.
      * eapply (produced_read_failed BusinessCard f); [exact He | exact Hs | | exact Hs'].
        simpl. rewrite Hn. reflexivity.
  - destruct (random_toString36 P (console_error P (failure_message f) e w1))
      as [s w2] eqn:Hs.
    exists (BusinessCardTab.placeholder (substr 2 9 s) (File.name f)), w2. split.
    + rewrite try_catch_Throw with (e := e) (s' := (w1, arr)).
      * apply card_catch_run. exact Hs.
      * rewrite (bind_Throw _ _ _ (lift_fst_run _ _ arr He)). reflexivity.
    + eapply (produced_extract_failed BusinessCard f); [exact He | exact Hs].
Qed.

(** ** The loops *)

Lemma invoice_loop {P : Platform} files (w : World P) :
  exists recs w',
    with_array (for_of files InvoiceTab.iteration) w = (Ok recs, w') /\
    trace (produced Invoice) files w (map InvoiceRecord recs) w'.
Proof.
  destruct (with_array_for_of InvoiceTab.iteration
              (fun f w r w' => produced Invoice f w (InvoiceRecord r) w')
              invoice_iteration_produced files w) as (recs & w' & H & Ht).
  exists recs, w'. split; [exact H | apply trace_map; exact Ht].
Qed.

Lemma card_loop {P : Platform} files (w : World P) :
  exists recs w',
    with_array (for_of files BusinessCardTab.iteration) w = (Ok recs, w') /\
    trace (produced BusinessCard) files w (map BusinessCardRecord recs) w'.
Proof.
  destruct (with_array_for_of BusinessCardTab.iteration
              (fun f w r w' => produced BusinessCard f w (BusinessCardRecord r) w')
              card_iteration_produced files w) as (recs & w' & H & Ht).
  exists recs, w'. split; [exact H | apply trace_map; exact Ht].
Qed.

Lemma run_trace {P : Platform} kind files (w : World P) :
  exists recs w',
    run kind files w = (Ok recs, w') /\
    trace (produced kind) files w recs w'.
Proof.
  destruct kind; simpl.
  - destruct (invoice_loop files w) as (recs & w' & H & Ht).
    exists (map InvoiceRecord recs), w'. split; [|exact Ht].
    rewrite (bind_Ok _ _ _ H). reflexivity.
  - destruct (card_loop files w) as (recs & w' & H & Ht).
    exists (map BusinessCardRecord recs), w'. split; [|exact Ht].
    rewrite (bind_Ok _ _ _ H). reflexivity.
Qed.

(** ** What a produced record carries *)

Lemma normalize_fileName kind id fileName raw r :
  normalize kind id fileName raw = Ok r -> record_fileName r = fileName.
Proof.
  destruct kind, raw; simpl; intros H; inversion H; reflexivity.
Qed.

Lemma normalize_id kind id fileName raw r :
  normalize kind id fileName raw = Ok r -> record_id r = id.
Proof.
  destruct kind, raw; simpl; intros H; inversion H; reflexivity.
Qed.

Lemma placeholder_fileName kind id fileName :
  record_fileName (failure_placeholder kind id fileName) = fileName.
Proof. destruct kind; reflexivity. Qed.

Lemma placeholder_id kind id fileName :
  record_id (failure_placeholder kind id fileName) = id.
Proof. destruct kind; reflexivity. Qed.

Lemma produced_fileName {P : Platform} kind f (w : World P) r w' :
  produced kind f w r w' -> record_fileName r = File.name f.
Proof.
  intros H. destruct H.
  - eapply normalize_fileName; eassumption.
  - apply placeholder_fileName.
  - apply placeholder_fileName.
Qed.

(** The identifier of a produced record is the slice of a draw made
    during the record's own iteration. *)
Lemma produced_id {P : Platform} kind f (w : World P) r w' :
  produced kind f w r w' ->
  exists w0, record_id r = substr 2 9 (fst (random_toString36 P w0)).
Proof.
  intros H. destruct H as [w raw w1 s w2 r He Hs Hn
                          | w e w1 s w2 He Hs
                          | w raw w1 s0 w2 e s w3 He Hs0 Hn Hs].
  - exists w1. rewrite Hs. simpl. eapply normalize_id; eassumption.
  - exists (console_error P (failure_message f) e w1).
    rewrite Hs. simpl. apply placeholder_id.
  - exists (console_error P (failure_message f) e w2).
    rewrite Hs. simpl. apply placeholder_id.
Qed.

(** ** processFiles *)

Lemma length_zero_nil {A} (l : list A) :
  (List.length l =? 0)%nat = false <-> l <> [].
Proof.
  destruct l; simpl; split; intros H; congruence.
Qed.

Lemma invoice_processFiles_empty {P : Platform} st (w : World P) :
  InvoiceTab.files st = [] ->
  InvoiceTab.processFiles st w
  = (Ok (InvoiceTab.setErrorMsg
           (Some "Please upload at least one invoice file first.") st), w).
Proof. intros H. unfold InvoiceTab.processFiles. rewrite H. reflexivity. Qed.

Lemma card_processFiles_empty {P : Platform} st (w : World P) :
  BusinessCardTab.files st = [] ->
  BusinessCardTab.processFiles st w
  = (Ok (BusinessCardTab.setErrorMsg
           (Some "Please upload at least one business card.") st), w).
Proof. intros H. unfold BusinessCardTab.processFiles. rewrite H. reflexivity. Qed.

Lemma invoice_processFiles_run {P : Platform} st (w : World P) :
  InvoiceTab.files st <> [] ->
  exists recs w',
    with_array (for_of (InvoiceTab.files st) InvoiceTab.iteration) w = (Ok recs, w') /\
    InvoiceTab.processFiles st w
    = (Ok (InvoiceTab.completed_state recs (InvoiceTab.processing_state st)), w') /\
    trace (produced Invoice) (InvoiceTab.files st) w (map InvoiceRecord recs) w'.
Proof.
  intros Hne.
  destruct (invoice_loop (InvoiceTab.files st) w) as (recs & w' & Hl & Ht).
  exists recs, w'. split; [exact Hl | split; [| exact Ht]].
  unfold InvoiceTab.processFiles.
  apply length_zero_nil in Hne. rewrite Hne.
  change (InvoiceTab.files (InvoiceTab.processing_state st)) with (InvoiceTab.files st).
  rewrite (bind_Ok _ _ _ Hl). reflexivity.
Qed.

Lemma card_processFiles_run {P : Platform} st (w : World P) :
  BusinessCardTab.files st <> [] ->
  exists recs w',
    with_array (for_of (BusinessCardTab.files st) BusinessCardTab.iteration) w
    = (Ok recs, w') /\
    BusinessCardTab.processFiles st w
    = (Ok (BusinessCardTab.completed_state recs (BusinessCardTab.processing_state st)), w') /\
    trace (produced BusinessCard) (BusinessCardTab.files st) w
          (map BusinessCardRecord recs) w'.
Proof.
  intros Hne.
  destruct (card_loop (BusinessCardTab.files st) w) as (recs & w' & Hl & Ht).
  exists recs, w'. split; [exact Hl | split; [| exact Ht]].
  unfold BusinessCardTab.processFiles.
  apply length_zero_nil in Hne. rewrite Hne.
  change (BusinessCardTab.files (BusinessCardTab.processing_state st))
    with (BusinessCardTab.files st).
  rewrite (bind_Ok _ _ _ Hl). reflexivity.
Qed.

(** The names of the records of a trace are the names of the files. *)
Lemma trace_names {P : Platform} kind files (w : World P) recs w' :
  trace (produced kind) files w recs w' ->
  Forall2 (fun f r => record_fileName r = File.name f) files recs.
Proof.
  apply trace_Forall2. intros f w0 r w1. apply produced_fileName.
Qed.

Lemma Forall2_map_r {A B C} (Q : A -> C -> Prop) (g : B -> C) l l' :
  Forall2 Q l (map g l') -> Forall2 (fun a b => Q a (g b)) l l'.
Proof.
  revert l. induction l' as [|b l' IH]; intros l H; simpl in H; inversion H; subst.
  - constructor.
  - constructor; auto.
Qed.

Lemma invoice_status_invariant {P : Platform} (c : InvoiceTab.State * World P) :
  InvoiceTab.reachable c -> InvoiceTab.status (fst c) <> error.
Proof.
  induction 1 as [w | c c' _ IH Hstep].
  - simpl. discriminate.
  - destruct Hstep; simpl in *; try exact IH; discriminate.
Qed.

Lemma card_status_invariant {P : Platform} (c : BusinessCardTab.State * World P) :
  BusinessCardTab.reachable c -> BusinessCardTab.status (fst c) <> error.
Proof.
  induction 1 as [w | c c' _ IH Hstep].
  - simpl. discriminate.
  - destruct Hstep; simpl in *; try exact IH; discriminate.
Qed.

(** A whole run of [processFiles] is a start step followed by a completion
    step of the component. *)
Lemma invoice_processFiles_steps {P : Platform} st (w : World P) st' w' :
  InvoiceTab.status st <> processing ->
  InvoiceTab.files st <> [] ->
  InvoiceTab.processFiles st w = (Ok st', w') ->
  InvoiceTab.step (st, w) (InvoiceTab.processing_state st, w) /\
  InvoiceTab.step (InvoiceTab.processing_state st, w) (st', w').
Proof.
  intros Hs Hne Hrun.
  destruct (invoice_processFiles_run st w Hne) as (recs & w1 & Hl & Hp & _).
  rewrite Hp in Hrun. injection Hrun as <- <-.
  split.
  - apply InvoiceTab.step_started; assumption.
  - apply InvoiceTab.step_completed; [reflexivity | exact Hl].
Qed.

Lemma card_processFiles_steps {P : Platform} st (w : World P) st' w' :
  BusinessCardTab.status st <> processing ->
  BusinessCardTab.files st <> [] ->
  BusinessCardTab.processFiles st w = (Ok st', w') ->
  BusinessCardTab.step (st, w) (BusinessCardTab.processing_state st, w) /\
  BusinessCardTab.step (BusinessCardTab.processing_state st, w) (st', w').
Proof.
  intros Hs Hne Hrun.
  destruct (card_processFiles_run st w Hne) as (recs & w1 & Hl & Hp & _).
  rewrite Hp in Hrun. injection Hrun as <- <-.
  split.
  - apply BusinessCardTab.step_started; assumption.
  - apply BusinessCardTab.step_completed; [reflexivity | exact Hl].
Qed.

(** ** The batch invariant *)

(** C1.  A batch run over a non-empty queue appends exactly one record per
    submitted file: the run returns, the results grow by a list [recs] as
    long as the queue, and the record at every index carries the name of
    the file at that index.  Each single iteration of either loop appends
    exactly one record to the array, whatever happens to the file. *)
Theorem C1_one_record_per_file :
  forall (P : Platform),
    (forall st (w : World P),
        InvoiceTab.files st <> [] ->
        exists recs st' w',
          InvoiceTab.processFiles st w = (Ok st', w') /\
          InvoiceTab.invoices st' = InvoiceTab.invoices st ++ recs /\
          List.length recs = List.length (InvoiceTab.files st) /\
          forall i f,
            nth_error (InvoiceTab.files st) i = Some f ->
            exists r, nth_error recs i = Some r /\
                      InvoiceData.fileName r = File.name f) /\
    (forall st (w : World P),
        BusinessCardTab.files st <> [] ->
        exists recs st' w',
          BusinessCardTab.processFiles st w = (Ok st', w') /\
          BusinessCardTab.cards st' = BusinessCardTab.cards st ++ recs /\
          List.length recs = List.length (BusinessCardTab.files st) /\
          forall i f,
            nth_error (BusinessCardTab.files st) i = Some f ->
            exists r, nth_error recs i = Some r /\
                      BusinessCardData.fileName r = File.name f) /\
    (forall f (w : World P) arr,
        exists r w',
          InvoiceTab.iteration f (w, arr) = (Ok tt, (w', arr ++ [r])) /\
          InvoiceData.fileName r = File.name f) /\
    (forall f (w : World P) arr,
        exists r w',
          BusinessCardTab.iteration f (w, arr) = (Ok tt, (w', arr ++ [r])) /\
          BusinessCardData.fileName r = File.name f).
Proof.
  intros P. repeat split.
  - intros st w Hne.
    destruct (invoice_processFiles_run st w Hne) as (recs & w' & _ & Hp & Ht).
    exists recs, (InvoiceTab.completed_state recs (InvoiceTab.processing_state st)), w'.
    split; [exact Hp | split; [reflexivity | split]].
    + rewrite <- (length_map InvoiceRecord). eapply trace_length; exact Ht.
    + intros i f Hi.
      apply trace_names, Forall2_map_r in Ht.
      destruct (Forall2_nth_error Ht _ Hi) as (r & Hr & Hn).
      exists r. split; assumption.
  - intros st w Hne.
    destruct (card_processFiles_run st w Hne) as (recs & w' & _ & Hp & Ht).
    exists recs, (BusinessCardTab.completed_state recs (BusinessCardTab.processing_state st)), w'.
    split; [exact Hp | split; [reflexivity | split]].
    + rewrite <- (length_map BusinessCardRecord). eapply trace_length; exact Ht.
    + intros i f Hi.
      apply trace_names, Forall2_map_r in Ht.
      destruct (Forall2_nth_error Ht _ Hi) as (r & Hr & Hn).
      exists r. split; assumption.
  - intros f w arr.
    destruct (invoice_iteration_produced f w arr) as (r & w' & Hi & Hp).
    exists r, w'. split; [exact Hi | exact (produced_fileName Hp)].
  - intros f w arr.
    destruct (card_iteration_produced f w arr) as (r & w' & Hi & Hp).
    exists r, w'. split; [exact Hi | exact (produced_fileName Hp)].
Qed.

Lemma C1_one_record_per_file_witness :
  InvoiceTab.files Scripted.invoice_queue <> [] /\
  exists recs st' w',
    InvoiceTab.processFiles (P := Scripted.platform) Scripted.invoice_queue Scripted.mixed
    = (Ok st', w') /\
    InvoiceTab.invoices st' = InvoiceTab.invoices Scripted.invoice_queue ++ recs /\
    List.length recs = List.length (InvoiceTab.files Scripted.invoice_queue) /\
    forall i f,
      nth_error (InvoiceTab.files Scripted.invoice_queue) i = Some f ->
      exists r, nth_error recs i = Some r /\
                InvoiceData.fileName r = File.name f.
Proof.
  split.
  - discriminate.
  - apply (proj1 (C1_one_record_per_file Scripted.platform)). discriminate.
Defined.

(** ** Status *)

(** C9.  A batch run over a non-empty queue always ends with [status] set
    to [success], whatever the files did (every one of them may have
    failed); and no state the component can reach, the intermediate
    [processing] state included, has [status] equal to [error]. *)
Theorem C9_status_success_never_error :
  forall (P : Platform),
    (forall st (w : World P),
        InvoiceTab.files st <> [] ->
        exists st' w',
          InvoiceTab.processFiles st w = (Ok st', w') /\
          InvoiceTab.status st' = success) /\
    (forall st (w : World P),
        BusinessCardTab.files st <> [] ->
        exists st' w',
          BusinessCardTab.processFiles st w = (Ok st', w') /\
          BusinessCardTab.status st' = success) /\
    (forall st (w : World P),
        InvoiceTab.reachable (st, w) -> InvoiceTab.status st <> error) /\
    (forall st (w : World P),
        BusinessCardTab.reachable (st, w) -> BusinessCardTab.status st <> error).
Proof.
  intros P. repeat split.
  - intros st w Hne.
    destruct (invoice_processFiles_run st w Hne) as (recs & w' & _ & Hp & _).
    eexists _, w'. split; [exact Hp | reflexivity].
  - intros st w Hne.
    destruct (card_processFiles_run st w Hne) as (recs & w' & _ & Hp & _).
    eexists _, w'. split; [exact Hp | reflexivity].
  - intros st w H. exact (invoice_status_invariant H).
  - intros st w H. exact (card_status_invariant H).
Qed.

(** In the script [colliding] no model call is answered, so every file of
    the queue fails; the run still ends in [success]. *)
Lemma C9_status_success_never_error_witness :
  InvoiceTab.files Scripted.invoice_queue <> [] /\
  exists st' w',
    InvoiceTab.processFiles (P := Scripted.platform)
      Scripted.invoice_queue Scripted.colliding = (Ok st', w') /\
    InvoiceTab.status st' = success.
Proof.
  split.
  - discriminate.
  - apply (proj1 (C9_status_success_never_error Scripted.platform)). discriminate.
Defined.

(** ** Frame *)

(** C10.  A run of [processFiles] appends the records of its loop to the
    results it found: every earlier record keeps its value and its
    position, and the pending queue is empty afterwards. *)
Theorem C10_results_appended_queue_cleared :
  forall (P : Platform),
    (forall st (w : World P),
        exists recs st' w',
          with_array (for_of (InvoiceTab.files st) InvoiceTab.iteration) w
          = (Ok recs, w') /\
          InvoiceTab.processFiles st w = (Ok st', w') /\
          InvoiceTab.invoices st' = InvoiceTab.invoices st ++ recs /\
          (forall i r, nth_error (InvoiceTab.invoices st) i = Some r ->
                       nth_error (InvoiceTab.invoices st') i = Some r) /\
          InvoiceTab.files st' = []) /\
    (forall st (w : World P),
        exists recs st' w',
          with_array (for_of (BusinessCardTab.files st) BusinessCardTab.iteration) w
          = (Ok recs, w') /\
          BusinessCardTab.processFiles st w = (Ok st', w') /\
          BusinessCardTab.cards st' = BusinessCardTab.cards st ++ recs /\
          (forall i r, nth_error (BusinessCardTab.cards st) i = Some r ->
                       nth_error (BusinessCardTab.cards st') i = Some r) /\
          BusinessCardTab.files st' = []).
Proof.
  intros P. split.
  - intros st w.
    destruct (InvoiceTab.files st) as [|f fs] eqn:Hf.
    + exists [], (InvoiceTab.setErrorMsg
                   (Some "Please upload at least one invoice file first.") st), w.
      split; [reflexivity |].
      split; [apply invoice_processFiles_empty; exact Hf |].
      simpl. rewrite app_nil_r. repeat split; auto.
    + assert (Hne : InvoiceTab.files st <> []) by (rewrite Hf; discriminate).
      destruct (invoice_processFiles_run st w Hne) as (recs & w' & Hl & Hp & _).
      rewrite Hf in Hl.
      exists recs, (InvoiceTab.completed_state recs (InvoiceTab.processing_state st)), w'.
      split; [exact Hl |]. split; [exact Hp |]. simpl.
      split; [reflexivity |]. split; [| reflexivity].
      intros i r Hi. rewrite nth_error_app1; [exact Hi |].
      apply nth_error_Some. congruence.
  - intros st w.
    destruct (BusinessCardTab.files st) as [|f fs] eqn:Hf.
    + exists [], (BusinessCardTab.setErrorMsg
                   (Some "Please upload at least one business card.") st), w.
      split; [reflexivity |].
      split; [apply card_processFiles_empty; exact Hf |].
      simpl. rewrite app_nil_r. repeat split; auto.
    + assert (Hne : BusinessCardTab.files st <> []) by (rewrite Hf; discriminate).
      destruct (card_processFiles_run st w Hne) as (recs & w' & Hl & Hp & _).
      rewrite Hf in Hl.
      exists recs, (BusinessCardTab.completed_state recs
                      (BusinessCardTab.processing_state st)), w'.
      split; [exact Hl |]. split; [exact Hp |]. simpl.
      split; [reflexivity |]. split; [| reflexivity].
      intros i r Hi. rewrite nth_error_app1; [exact Hi |].
      apply nth_error_Some. congruence.
Qed.

(** ** Failure isolation *)

Lemma produced_deterministic {P : Platform} kind f (w : World P) r1 w1 r2 w2 :
  produced kind f w r1 w1 -> produced kind f w r2 w2 -> r1 = r2 /\ w1 = w2.
Proof.
  intros H1 H2.
  destruct H1 as [w raw w1 s w2' r He Hs Hn
                 | w e w1 s w2' He Hs
                 | w raw w1 s0 w2' e s w3 He Hs0 Hn Hs];
    inversion H2 as [w0 raw0 w10 s1 w20 r0 He0 Hs1 Hn0
                    | w0 e0 w10 s1 w20 He0 Hs1
                    | w0 raw0 w10 s00 w20 e0 s1 w30 He0 Hs00 Hn0 Hs1]; subst;
    rewrite He in He0; inversion He0; subst.
  - rewrite Hs in Hs1. inversion Hs1; subst.
    rewrite Hn in Hn0. inversion Hn0. auto.
  - rewrite Hs in Hs00. inversion Hs00; subst.
    rewrite Hn in Hn0. discriminate.
  - rewrite Hs in Hs1. inversion Hs1; subst. auto.
  - rewrite Hs0 in Hs1. inversion Hs1; subst.
    rewrite Hn in Hn0. discriminate.
  - rewrite Hs0 in Hs00. inversion Hs00; subst.
    rewrite Hn in Hn0. inversion Hn0; subst.
    rewrite Hs in Hs1. inversion Hs1; subst. auto.
Qed.

Lemma trace_deterministic {P : Platform} kind files (w : World P) recs1 w1 :
  trace (produced kind) files w recs1 w1 ->
  forall recs2 w2,
    trace (produced kind) files w recs2 w2 -> recs1 = recs2 /\ w1 = w2.
Proof.
  induction 1 as [w | f files w r wa recs wb Hr _ IH]; intros recs2 w2 H2;
    inversion H2; subst.
  - auto.
  - match goal with
    | H : produced kind f w _ _ |- _ =>
        destruct (produced_deterministic Hr H) as [<- <-]
    end.
    match goal with
    | H : trace _ files wa _ _ |- _ => destruct (IH _ _ H) as [<- <-]
    end.
    auto.
Qed.

(** A run is the trace it admits. *)
Lemma run_of_trace {P : Platform} kind files (w : World P) recs w' :
  trace (produced kind) files w recs w' -> run kind files w = (Ok recs, w').
Proof.
  intros Ht.
  destruct (run_trace kind files w) as (recs0 & w0 & Hrun & Ht0).
  destruct (trace_deterministic Ht0 Ht) as [<- <-]. exact Hrun.
Qed.









(** ** Normalization *)

Lemma nullish_present v d : v <> JNull -> Some v ?? d = v.
Proof. destruct v; simpl; congruence. Qed.

Lemma nullish_absent x d : x = None \/ x = Some JNull -> x ?? d = d.
Proof. intros [-> | ->]; reflexivity. Qed.

(** A record made from a successful extraction is the normalized record
    of the extracted value. *)
Lemma run_single_record {P : Platform} kind f (w : World P) raw w1 s w2 r :
  extract kind f w = (Ok raw, w1) ->
  random_toString36 P w1 = (s, w2) ->
  normalize kind (substr 2 9 s) (File.name f) raw = Ok r ->
  run kind [f] w = (Ok [r], w2).
Proof.
  intros He Hs Hn. apply run_of_trace.
  apply trace_cons with (w1 := w2); [| apply trace_nil].
  eapply produced_record; eassumption.
Qed.

Ltac field_case :=
  simpl; split;
  [ intros v Hv Hnn; rewrite Hv; f_equal; apply nullish_present; exact Hnn
  | intros Habs; f_equal; apply nullish_absent; exact Habs ].

(** Field by field, the success literal carries the mapping's value when
    there is one that is not [null], and the documented default
    otherwise. *)
Lemma normalize_fields kind id fileName props :
  exists r,
    normalize kind id fileName (JObj props) = Ok r /\
    record_id r = id /\
    record_fileName r = fileName /\
    forall k,
      In k (field_names kind) ->
      (forall v, assoc k props = Some v -> v <> JNull ->
                 record_field r k = Some v) /\
      (assoc k props = None \/ assoc k props = Some JNull ->
       record_field r k = Some (documented_default kind k)).
Proof.
  destruct kind; simpl; eexists; (split; [reflexivity |]);
    (split; [reflexivity |]); (split; [reflexivity |]);
    intros k Hk; simpl in Hk;
    repeat (destruct Hk as [<- | Hk]; [field_case |]); contradiction.
Qed.

Lemma nullish_idempotent x d : Some (x ?? d) ?? d = x ?? d.
Proof. destruct x as [v|]; [destruct v |]; simpl; destruct d; reflexivity. Qed.

(** C3.  Normalization of a parsed mapping always yields a record; each
    field of the record is the mapping's value for it when the mapping has
    one that is not [null], and the documented default of the field when
    the mapping has none (or has [null]).  The two scenarios of the
    specification are instances, and a successful extraction is turned
    into a record by exactly this normalization. *)
Theorem C3_normalization_defaults :
  (forall kind id fileName props,
      exists r,
        normalize kind id fileName (JObj props) = Ok r /\
        record_id r = id /\
        record_fileName r = fileName /\
        forall k,
          In k (field_names kind) ->
          (forall v, assoc k props = Some v -> v <> JNull ->
                     record_field r k = Some v) /\
          (assoc k props = None \/ assoc k props = Some JNull ->
           record_field r k = Some (documented_default kind k))) /\
  (forall id fileName,
      normalize Invoice id fileName
        (JObj [("supplier_name", JStr "Acme Co"); ("total_amount", JNum 150.5)])
      = Ok (InvoiceRecord
              {| InvoiceData.id := id;
                 InvoiceData.fileName := fileName;
                 InvoiceData.invoice_number := JNull;
                 InvoiceData.invoice_date := JNull;
                 InvoiceData.supplier_name := JStr "Acme Co";
                 InvoiceData.supplier_tax_id := JNull;
                 InvoiceData.total_amount := JNum 150.5;
                 InvoiceData.currency := JStr "USD";
                 InvoiceData.tax_amount := JNum 0;
                 InvoiceData.line_items := JArr [] |})) /\
  (forall id fileName,
      normalize BusinessCard id fileName (JObj [("full_name", JStr "Jane Doe")])
      = Ok (BusinessCardRecord
              {| BusinessCardData.id := id;
                 BusinessCardData.fileName := fileName;
                 BusinessCardData.full_name := JStr "Jane Doe";
                 BusinessCardData.company := JNull;
                 BusinessCardData.job_title := JNull;
                 BusinessCardData.email := JNull;
                 BusinessCardData.phone := JNull;
                 BusinessCardData.website := JNull;
                 BusinessCardData.address := JNull |})) /\
  (forall (P : Platform) kind f (w : World P) raw w1 s w2 r,
      extract kind f w = (Ok raw, w1) ->
      random_toString36 P w1 = (s, w2) ->
      normalize kind (substr 2 9 s) (File.name f) raw = Ok r ->
      run kind [f] w = (Ok [r], w2)).
Proof.
  split; [| split; [| split]].
  - apply normalize_fields.
  - reflexivity.
  - reflexivity.
  - intros P kind f w raw w1 s w2 r. apply run_single_record.
Qed.

(** The success scenario end to end: the scripted model answers
    [invoice1.pdf] with the text of the Acme mapping. *)
Lemma C3_normalization_defaults_witness :
  run (P := Scripted.platform) Invoice [Scripted.pdf "invoice1.pdf"] Scripted.mixed
  = (Ok [InvoiceRecord
           {| InvoiceData.id := "4fzyo82mv";
              InvoiceData.fileName := "invoice1.pdf";
              InvoiceData.invoice_number := JNull;
              InvoiceData.invoice_date := JNull;
              InvoiceData.supplier_name := JStr "Acme Co";
              InvoiceData.supplier_tax_id := JNull;
              InvoiceData.total_amount := JNum 150.5;
              InvoiceData.currency := JStr "USD";
              InvoiceData.tax_amount := JNum 0;
              InvoiceData.line_items := JArr [] |}],
     {| Scripted.replies := [Throw (Rejection "quota exceeded"); Scripted.reply "{}"];
        Scripted.draws := ["0.k2j1x9"; "0.zz9qq1a2b3c4"];
        Scripted.console := [] |}).
Proof.
  eapply (proj2 (proj2 (proj2 C3_normalization_defaults))
            Scripted.platform Invoice (Scripted.pdf "invoice1.pdf")
            Scripted.mixed Scripted.acme);
    reflexivity.
Defined.

(** C7.  When the parsed mapping supplies, for every field of the record
    shape, a value that is not [null], the normalized record carries
    exactly the supplied values, with the given identifier and file name:
    no default is substituted.  In particular normalization is idempotent:
    normalizing the fields of a record that normalization produced gives
    that record again. *)
Theorem C7_normalization_complete_input :
  (forall kind id fileName props,
      (forall k, In k (field_names kind) ->
                 exists v, assoc k props = Some v /\ v <> JNull) ->
      exists r,
        normalize kind id fileName (JObj props) = Ok r /\
        record_id r = id /\
        record_fileName r = fileName /\
        forall k, In k (field_names kind) -> record_field r k = assoc k props) /\
  (forall kind id fileName raw r,
      normalize kind id fileName raw = Ok r ->
      normalize kind id fileName (JObj (record_mapping r)) = Ok r).
Proof.
  split.
  - intros kind id fileName props Hall.
    destruct (normalize_fields kind id fileName props)
      as (r & Hn & Hid & Hfn & Hfields).
    exists r. repeat split; try assumption.
    intros k Hk.
    destruct (Hall k Hk) as (v & Hv & Hnn).
    rewrite Hv. exact (proj1 (Hfields k Hk) v Hv Hnn).
  - intros kind id fileName raw r Hn.
    destruct kind, raw; simpl in Hn; inversion Hn; subst; clear Hn;
      cbn -[nullish]; rewrite ?nullish_idempotent; reflexivity.
Qed.

Lemma C7_normalization_complete_input_witness :
  exists r,
    normalize BusinessCard "4fzyo82mv" "card.png" (JObj Scripted.complete_card) = Ok r /\
    record_id r = "4fzyo82mv" /\
    record_fileName r = "card.png" /\
    forall k, In k (field_names BusinessCard) ->
              record_field r k = assoc k Scripted.complete_card.
Proof.
  apply (proj1 C7_normalization_complete_input).
  intros k Hk. simpl in Hk.
  repeat (destruct Hk as [<- | Hk];
          [eexists; split; [reflexivity | discriminate] |]).
  contradiction.
Defined.

(** An explicit [null] counts as absent: the default replaces it. *)
Example null_supplier_is_defaulted :
  normalize Invoice "4fzyo82mv" "invoice1.pdf"
    (JObj [("supplier_name", JNull); ("total_amount", JNum 12)])
  = Ok (InvoiceRecord
          {| InvoiceData.id := "4fzyo82mv";
             InvoiceData.fileName := "invoice1.pdf";
             InvoiceData.invoice_number := JNull;
             InvoiceData.invoice_date := JNull;
             InvoiceData.supplier_name := JStr "Unknown Supplier";
             InvoiceData.supplier_tax_id := JNull;
             InvoiceData.total_amount := JNum 12;
             InvoiceData.currency := JStr "USD";
             InvoiceData.tax_amount := JNum 0;
             InvoiceData.line_items := JArr [] |}).
Proof. reflexivity. Qed.

(** ** The failure placeholder *)

(** C4.  When the extraction of an invoice file throws, the iteration for
    that file appends the failure placeholder: the file's own name,
    [invoice_number] ["ERROR"], [supplier_name] ["Extraction Failed"], both
    amounts [0], [currency] the empty string and no line items.  For a
    queue holding just that file, this record is what [processFiles] adds
    to the results. *)
Theorem C4_invoice_failure_placeholder :
  forall (P : Platform) f (w : World P) e w1,
    extractInvoiceData f w = (Throw e, w1) ->
    (forall arr,
        exists id w',
          InvoiceTab.iteration f (w, arr)
          = (Ok tt,
             (w', arr ++ [ {| InvoiceData.id := id;
                              InvoiceData.fileName := File.name f;
                              InvoiceData.invoice_number := JStr "ERROR";
                              InvoiceData.invoice_date := JNull;
                              InvoiceData.supplier_name := JStr "Extraction Failed";
                              InvoiceData.supplier_tax_id := JNull;
                              InvoiceData.total_amount := JNum 0;
                              InvoiceData.currency := JStr "";
                              InvoiceData.tax_amount := JNum 0;
                              InvoiceData.line_items := JArr [] |} ]))) /\
    (forall st,
        InvoiceTab.files st = [f] ->
        exists id st' w',
          InvoiceTab.processFiles st w = (Ok st', w') /\
          InvoiceTab.invoices st'
          = InvoiceTab.invoices st ++
              [ {| InvoiceData.id := id;
                   InvoiceData.fileName := File.name f;
                   InvoiceData.invoice_number := JStr "ERROR";
                   InvoiceData.invoice_date := JNull;
                   InvoiceData.supplier_name := JStr "Extraction Failed";
                   InvoiceData.supplier_tax_id := JNull;
                   InvoiceData.total_amount := JNum 0;
                   InvoiceData.currency := JStr "";
                   InvoiceData.tax_amount := JNum 0;
                   InvoiceData.line_items := JArr [] |} ]).
Proof.
  intros P f w e w1 He.
  destruct (random_toString36 P (console_error P (failure_message f) e w1))
    as [s w2] eqn:Hs.
  assert (Hit : forall arr,
             InvoiceTab.iteration f (w, arr)
             = (Ok tt, (w2, arr ++ [InvoiceTab.placeholder (substr 2 9 s) (File.name f)]))).
  { intros arr. unfold InvoiceTab.iteration.
    rewrite try_catch_Throw with (e := e) (s' := (w1, arr)).
    - apply invoice_catch_run. exact Hs.
    - rewrite (bind_Throw _ _ _ (lift_fst_run _ _ arr He)). reflexivity. }
  split.
  - intros arr. exists (substr 2 9 s), w2. rewrite Hit. reflexivity.
  - intros st Hf.
    assert (Hne : InvoiceTab.files st <> []) by (rewrite Hf; discriminate).
    destruct (invoice_processFiles_run st w Hne) as (recs & w' & Hl & Hp & _).
    rewrite Hf in Hl. unfold with_array in Hl. simpl for_of in Hl.
    rewrite (bind_Ok _ _ _ (Hit [])) in Hl. simpl in Hl.
    injection Hl as <- <-.
    eexists (substr 2 9 s), _, w2. split; [exact Hp | reflexivity].
Qed.

(** The model call for [scan1.pdf] is rejected. *)
Lemma C4_invoice_failure_placeholder_witness :
  exists id st' w',
    InvoiceTab.processFiles (P := Scripted.platform) Scripted.scan_queue Scripted.failing
    = (Ok st', w') /\
    InvoiceTab.invoices st'
    = InvoiceTab.invoices Scripted.scan_queue ++
        [ {| InvoiceData.id := id;
             InvoiceData.fileName := "scan1.pdf";
             InvoiceData.invoice_number := JStr "ERROR";
             InvoiceData.invoice_date := JNull;
             InvoiceData.supplier_name := JStr "Extraction Failed";
             InvoiceData.supplier_tax_id := JNull;
             InvoiceData.total_amount := JNum 0;
             InvoiceData.currency := JStr "";
             InvoiceData.tax_amount := JNum 0;
             InvoiceData.line_items := JArr [] |} ].
Proof.
  refine (proj2 (C4_invoice_failure_placeholder Scripted.platform
                   (Scripted.pdf "scan1.pdf") Scripted.failing _) _ _);
    reflexivity.
Defined.

(** ** Extraction *)

(** C5.  Once the file is encoded and the model call has returned a
    response, extraction throws in exactly two ways: with
    ["No data returned from model"] when the response has no text (it is
    [undefined] or empty), and with the different
    ["Failed to parse model response"] when [JSON.parse] rejects the text.
    Whenever [JSON.parse] accepts the text, extraction returns the parsed
    value as it is: nothing inspects which fields it has. *)
Theorem C5_extraction_failures :
  forall (P : Platform) kind f (w : World P) part w1 resp w2,
    fileToGenerativePart f w = (Ok part, w1) ->
    generateContent P (request_of kind part) w1 = (Ok resp, w2) ->
    (not_text (text resp) = true ->
     extract kind f w = (Throw (Error "No data returned from model"), w2)) /\
    (forall t,
        text resp = Some t -> t <> "" -> JSON_parse P t = None ->
        extract kind f w
        = (Throw (Error "Failed to parse model response"),
           console_error P "Failed to parse JSON"
             (SyntaxError "Unexpected token in JSON") w2)) /\
    (forall t v,
        text resp = Some t -> t <> "" -> JSON_parse P t = Some v ->
        extract kind f w = (Ok v, w2)) /\
    ((exists e w', extract kind f w = (Throw e, w')) <->
     (text resp = None \/ text resp = Some "" \/
      exists t, text resp = Some t /\ JSON_parse P t = None)) /\
    Error "No data returned from model" <> Error "Failed to parse model response".
Proof.
  intros P kind f w part w1 resp w2 Hpart Hcall.
  assert (Hrun : extract kind f w
                 = (if not_text (text resp)
                    then throw (Error "No data returned from model")
                    else try_catch
                           (JSON_parse_M (match text resp with Some t => t | None => "" end))
                           (fun e => log_error "Failed to parse JSON" e ;;
                                     throw (Error "Failed to parse model response"))) w2).
  { destruct kind; simpl extract;
      [unfold extractInvoiceData | unfold extractBusinessCardData];
      rewrite (bind_Ok _ _ _ Hpart);
      simpl request_of in Hcall;
      rewrite (bind_Ok _ _ _ Hcall); reflexivity. }
  assert (Hparse_fail : forall t, t <> "" -> JSON_parse P t = None ->
            text resp = Some t ->
            extract kind f w
            = (Throw (Error "Failed to parse model response"),
               console_error P "Failed to parse JSON"
                 (SyntaxError "Unexpected token in JSON") w2)).
  { intros t Hne Hp Ht. rewrite Hrun, Ht.
    destruct t as [|c t]; [congruence |]. simpl not_text. cbv iota.
    unfold try_catch, JSON_parse_M. rewrite Hp. reflexivity. }
  assert (Hparse_ok : forall t v, t <> "" -> JSON_parse P t = Some v ->
            text resp = Some t -> extract kind f w = (Ok v, w2)).
  { intros t v Hne Hp Ht. rewrite Hrun, Ht.
    destruct t as [|c t]; [congruence |]. simpl not_text. cbv iota.
    unfold try_catch, JSON_parse_M. rewrite Hp. reflexivity. }
  split; [| split; [| split; [| split]]].
  - intros Hno. rewrite Hrun, Hno. reflexivity.
  - intros t Ht Hne Hp. apply (Hparse_fail t); assumption.
  - intros t v Ht Hne Hp. apply (Hparse_ok t); assumption.
  - split.
    + intros (e & w' & He).
      destruct (text resp) as [t|] eqn:Ht; [| left; reflexivity].
      destruct t as [|c t]; [right; left; reflexivity |].
      right; right. exists (String c t). split; [reflexivity |].
      destruct (JSON_parse P (String c t)) as [v|] eqn:Hp; [| reflexivity].
      rewrite (Hparse_ok (String c t) v) in He; [discriminate | discriminate | exact Hp | reflexivity].
    + intros [Ht | [Ht | (t & Ht & Hp)]].
      * eexists _, _. rewrite Hrun, Ht. reflexivity.
      * eexists _, _. rewrite Hrun, Ht. reflexivity.
      * destruct t as [|c t].
        -- eexists _, _. rewrite Hrun, Ht. reflexivity.
        -- eexists _, _.
           apply (Hparse_fail (String c t)); [discriminate | exact Hp | exact Ht].
  - discriminate.
Qed.

(** The empty object lacks every required field and is returned as it
    is. *)
Lemma C5_extraction_failures_witness :
  extract (P := Scripted.platform) Invoice (Scripted.pdf "invoice1.pdf") Scripted.terse
  = (Ok (JObj []),
     {| Scripted.replies := []; Scripted.draws := ["0.4fzyo82mvyr"];
        Scripted.console := [] |}).
Proof.
  refine (proj1 (proj2 (proj2
            (C5_extraction_failures Scripted.platform Invoice
               (Scripted.pdf "invoice1.pdf") Scripted.terse _ _)))
            "{}" (JObj []) _ _ _);
    try reflexivity; discriminate.
Defined.

(** ** Identifiers *)

Lemma substring_length_le n m s : String.length (String.substring n m s) <= m.
Proof.
  revert n m. induction s as [|c s IH]; intros n m.
  - destruct n, m; simpl; lia.
  - destruct n as [|n].
    + destruct m as [|m]; simpl; [lia |].
      specialize (IH 0 m). lia.
    + simpl. apply IH.
Qed.

Lemma substr_2_9_nonempty s : substr 2 9 s <> "" <-> 2 < String.length s.
Proof.
  unfold substr.
  destruct s as [|a [|b [|c s]]]; simpl; split; intros H;
    try lia; try congruence; discriminate.
Qed.

(** The identifier of a produced record is the slice of the draw made in
    [id_draw_world], and that draw leaves the world the iteration ends
    in. *)
Lemma produced_id_draw {P : Platform} kind f (w : World P) r w' :
  produced kind f w r w' ->
  exists s,
    random_toString36 P (id_draw_world kind f w) = (s, w') /\
    record_id r = substr 2 9 s.
Proof.
  intros H. destruct H as [w raw w1 s w2 r He Hs Hn
                          | w e w1 s w2 He Hs
                          | w raw w1 s0 w2 e s w3 He Hs0 Hn Hs];
    unfold id_draw_world; rewrite He.
  - rewrite Hs, Hn. exists s. split; [exact Hs |].
    eapply normalize_id; eassumption.
  - exists s. split; [exact Hs | apply placeholder_id].
  - rewrite Hs0, Hn. exists s. split; [exact Hs | apply placeholder_id].
Qed.

(** Along a trace the identifiers are the slices of [id_draws], draw by
    draw. *)
Lemma trace_id_draws {P : Platform} kind files (w : World P) recs w' :
  trace (produced kind) files w recs w' ->
  Forall2 (fun r s => record_id r = substr 2 9 s) recs (id_draws kind files w).
Proof.
  induction 1 as [w | f files w r w1 recs w2 Hr _ IH].
  - apply Forall2_nil.
  - destruct (produced_id_draw Hr) as (s & Hs & Hid).
    simpl. rewrite Hs. apply Forall2_cons; assumption.
Qed.

Lemma Forall2_map_eq {A B C} (g : A -> C) (h : B -> C) l l' :
  Forall2 (fun a b => g a = h b) l l' -> map g l = map h l'.
Proof. induction 1; simpl; congruence. Qed.

(** C6, as stated, fails.  With the draws [0.5], [0.5] and [0], whose
    base-36 strings are [0.i], [0.i] and [0], a run over three files gives
    the identifiers [i], [i] and the empty string: two records share an
    identifier and one has none. *)
Lemma C6_identifiers_counterexample :
  exists recs w',
    run (P := Scripted.platform) Invoice Scripted.batch3 Scripted.colliding
    = (Ok recs, w') /\
    map record_id recs = ["i"; "i"; ""] /\
    ~ NoDup (map record_id recs) /\
    ~ Forall (fun r => record_id r <> "") recs.
Proof.
  eexists _, _. split; [reflexivity |]. split; [reflexivity |]. split.
  - simpl. intros H. inversion H as [| x l Hin _]; subst.
    apply Hin. left. reflexivity.
  - simpl. intros H.
    inversion H as [| x l _ H1]; subst.
    inversion H1 as [| y l' _ H2]; subst.
    inversion H2 as [| z l'' Hz _]; subst.
    apply Hz. reflexivity.
Qed.

(** C6, amended.  Every record of a run, success or placeholder, gets as
    identifier the slice [substr 2 9] of the base-36 string of a draw made
    in its own iteration: the draw made in [id_draw_world] of its file and
    of the world the iteration starts in, which leaves the world the
    iteration ends in.  So the identifiers of a run are, in order, the
    slices of [id_draws], as many draws as there are files.  A slice has at
    most nine characters, and a record's identifier is non-empty exactly
    when the string of its draw has more than two.  Nothing compares
    identifiers: those of a run are pairwise distinct exactly when the
    slices of its draws are. *)
Theorem C6_identifiers_from_draws :
  forall (P : Platform) kind files (w : World P),
    exists recs w',
      run kind files w = (Ok recs, w') /\
      trace (fun f wi r wi' =>
               exists s,
                 random_toString36 P (id_draw_world kind f wi) = (s, wi') /\
                 record_id r = substr 2 9 s)
            files w recs w' /\
      List.length (id_draws kind files w) = List.length files /\
      map record_id recs = map (substr 2 9) (id_draws kind files w) /\
      Forall (fun r => String.length (record_id r) <= 9) recs /\
      Forall2 (fun r s => record_id r <> "" <-> 2 < String.length s)
              recs (id_draws kind files w) /\
      (NoDup (map record_id recs)
       <-> NoDup (map (substr 2 9) (id_draws kind files w))).
Proof.
  intros P kind files w.
  destruct (run_trace kind files w) as (recs & w' & Hrun & Ht).
  pose proof (trace_id_draws Ht) as Hd.
  pose proof (Forall2_map_eq _ _ Hd) as Hids.
  exists recs, w'.
  split; [exact Hrun |].
  split.
  { revert Ht. apply trace_impl. intros f wi r wi' Hp.
    apply produced_id_draw. exact Hp. }
  split.
  { rewrite <- (trace_length Ht). symmetry.
    eapply Forall2_length. exact Hd. }
  split; [exact Hids |].
  split.
  { apply Forall_forall. intros r Hr.
    apply (in_map record_id) in Hr. rewrite Hids in Hr.
    apply in_map_iff in Hr. destruct Hr as (s & <- & _).
    apply substring_length_le. }
  split.
  { revert Hd. apply Forall2_impl. intros r s Hid.
    rewrite Hid. apply substr_2_9_nonempty. }
  rewrite Hids. reflexivity.
Qed.

(** ** The clipboard text *)


Lemma split_without_sep c x : occurs c x = false -> split c x = [x].
Proof.
  induction x as [|a x IH]; simpl; intros H; [reflexivity |].
  apply orb_false_iff in H. destruct H as [Ha Hx].
  rewrite Ha, (IH Hx). reflexivity.
Qed.

Lemma split_at_sep c x rest :
  occurs c x = false ->
  split c (x ++ String c rest) = x :: split c rest.
Proof.
  induction x as [|a x IH]; simpl; intros H.
  - rewrite Ascii.eqb_refl. reflexivity.
  - apply orb_false_iff in H. destruct H as [Ha Hx].
    rewrite Ha, (IH Hx). reflexivity.
Qed.

(** Splitting a joined text at the separator gives the joined pieces
    back, when there is a piece and no piece holds the separator. *)
Lemma split_concat c (l : list string) :
  l <> [] ->
  Forall (fun x => occurs c x = false) l ->
  split c (String.concat (String c "") l) = l.
Proof.
  induction l as [|x l IH]; intros Hne Hall; [congruence |].
  inversion Hall as [| x' l' Hx Hl]; subst.
  destruct l as [|y l].
  - simpl. apply split_without_sep. exact Hx.
  - change (String.concat (String c "") (x :: y :: l))
      with (x ++ String c (String.concat (String c "") (y :: l)))%string.
    rewrite split_at_sep by exact Hx. f_equal.
    apply IH; [discriminate | exact Hl].
Qed.






(** A string or [null] field converts to its text. *)
Lemma rendered_text N v : is_text v = true -> rendered N v = Ok (field_text v).
Proof.
  destruct v as [| b | q | s | items | props]; try discriminate; intros _.
  - reflexivity.
  - destruct s; reflexivity.
Qed.







(* ================================================================== *)
(** * Further properties of the service *)
(* ================================================================== *)

Lemma fileToGenerativePart_run {P : Platform} f (w : World P) url w1 :
  readAsDataURL P f w = (Ok url, w1) ->
  fileToGenerativePart f w
  = (Ok {| data := nth_error (split "," url) 1; mimeType := File.type f |}, w1).
Proof.
  intros H. unfold fileToGenerativePart. rewrite (bind_Ok _ _ _ H). reflexivity.
Qed.

Lemma extract_read_failed {P : Platform} kind f (w : World P) e w1 :
  readAsDataURL P f w = (Throw e, w1) -> extract kind f w = (Throw e, w1).
Proof.
  intros H.
  assert (Hp : fileToGenerativePart f w = (Throw e, w1)).
  { unfold fileToGenerativePart. rewrite (bind_Throw _ _ _ H). reflexivity. }
  destruct kind; simpl;
    [unfold extractInvoiceData | unfold extractBusinessCardData];
    rewrite (bind_Throw _ _ _ Hp); reflexivity.
Qed.

Lemma extract_call_failed {P : Platform} kind f (w : World P) url w1 e w2 :
  readAsDataURL P f w = (Ok url, w1) ->
  generateContent P
    (request_of kind {| data := nth_error (split "," url) 1;
                        mimeType := File.type f |}) w1
  = (Throw e, w2) ->
  extract kind f w = (Throw e, w2).
Proof.
  intros Hr Hc. pose proof (fileToGenerativePart_run _ _ Hr) as Hp.
  destruct kind; simpl in *;
    [unfold extractInvoiceData | unfold extractBusinessCardData];
    rewrite (bind_Ok _ _ _ Hp); rewrite (bind_Throw _ _ _ Hc); reflexivity.
Qed.

Lemma run_single_placeholder {P : Platform} kind f (w : World P) e w1 s w2 :
  extract kind f w = (Throw e, w1) ->
  random_toString36 P (console_error P (failure_message f) e w1) = (s, w2) ->
  run kind [f] w
  = (Ok [failure_placeholder kind (substr 2 9 s) (File.name f)], w2).
Proof.
  intros He Hs. apply run_of_trace.
  apply trace_cons with (w1 := w2); [| apply trace_nil].
  eapply produced_extract_failed; eassumption.
Qed.

(** X1.  When the read of a file is rejected, extraction rethrows the
    read's error from the world the read left, so the model is not called
    for that file; the loop then logs that very error under the file's
    name, takes one draw and appends the placeholder. *)
Theorem X1_unreadable_file_costs_no_model_call :
  forall (P : Platform) kind f (w : World P) e w1 s w2,
    readAsDataURL P f w = (Throw e, w1) ->
    random_toString36 P (console_error P (failure_message f) e w1) = (s, w2) ->
    extract kind f w = (Throw e, w1) /\
    run kind [f] w
    = (Ok [failure_placeholder kind (substr 2 9 s) (File.name f)], w2).
Proof.
  intros P kind f w e w1 s w2 Hr Hs.
  pose proof (extract_read_failed kind _ _ Hr) as He.
  split; [exact He | exact (run_single_placeholder kind _ _ He Hs)].
Qed.

Lemma X1_unreadable_file_costs_no_model_call_witness :
  extract (P := Scripted.platform) BusinessCard Samples.unreadable Scripted.terse
  = (Throw (Rejection "NotReadableError"), Scripted.terse) /\
  run (P := Scripted.platform) BusinessCard [Samples.unreadable] Scripted.terse
  = (Ok [failure_placeholder BusinessCard "4fzyo82mv" "torn.png"],
     {| Scripted.replies := [Scripted.reply "{}"];
        Scripted.draws := [];
        Scripted.console :=
          [("Error processing torn.png:", Rejection "NotReadableError")] |}).
Proof.
  apply X1_unreadable_file_costs_no_model_call
    with (e := Rejection "NotReadableError") (w1 := Scripted.terse)
         (s := "0.4fzyo82mvyr");
    reflexivity.
Defined.

(** X2.  When the model call is rejected, extraction rethrows the
    provider's error as it is, without logging or wrapping it; the loop
    logs that error under the file's name and appends the placeholder. *)
Theorem X2_provider_error_is_passed_on :
  forall (P : Platform) kind f (w : World P) url w1 e w2 s w3,
    readAsDataURL P f w = (Ok url, w1) ->
    generateContent P
      (request_of kind {| data := nth_error (split "," url) 1;
                          mimeType := File.type f |}) w1
    = (Throw e, w2) ->
    random_toString36 P (console_error P (failure_message f) e w2) = (s, w3) ->
    extract kind f w = (Throw e, w2) /\
    run kind [f] w
    = (Ok [failure_placeholder kind (substr 2 9 s) (File.name f)], w3).
Proof.
  intros P kind f w url w1 e w2 s w3 Hr Hc Hs.
  pose proof (extract_call_failed kind _ _ Hr Hc) as He.
  split; [exact He | exact (run_single_placeholder kind _ _ He Hs)].
Qed.

Lemma X2_provider_error_is_passed_on_witness :
  extract (P := Scripted.platform) Invoice (Scripted.pdf "scan1.pdf") Scripted.failing
  = (Throw (Rejection "quota exceeded"),
     {| Scripted.replies := []; Scripted.draws := ["0.k2j1x9"];
        Scripted.console := [] |}) /\
  run (P := Scripted.platform) Invoice [Scripted.pdf "scan1.pdf"] Scripted.failing
  = (Ok [failure_placeholder Invoice "k2j1x9" "scan1.pdf"],
     {| Scripted.replies := []; Scripted.draws := [];
        Scripted.console :=
          [("Error processing scan1.pdf:", Rejection "quota exceeded")] |}).
Proof.
  apply X2_provider_error_is_passed_on
    with (url := "data:application/pdf;base64,AAAA") (w1 := Scripted.failing)
         (s := "0.k2j1x9");
    reflexivity.
Defined.

(** X3.  The payload sent to the model is what follows the first comma of
    the data URL: for a URL made of a prefix without comma, a comma and a
    payload without comma, the part carries exactly the payload and the
    file's media type.  A URL without any comma gives a part whose data is
    [undefined], and encoding still succeeds. *)
Theorem X3_data_url_payload :
  forall (P : Platform) f (w : World P) w1,
    (forall prefix payload,
        readAsDataURL P f w = (Ok (prefix ++ "," ++ payload)%string, w1) ->
        occurs "," prefix = false ->
        occurs "," payload = false ->
        fileToGenerativePart f w
        = (Ok {| data := Some payload; mimeType := File.type f |}, w1)) /\
    (forall url,
        readAsDataURL P f w = (Ok url, w1) ->
        occurs "," url = false ->
        fileToGenerativePart f w
        = (Ok {| data := None; mimeType := File.type f |}, w1)).
Proof.
  intros P f w w1. split.
  - intros prefix payload Hr Hp Hd.
    rewrite (fileToGenerativePart_run _ _ Hr).
    change (prefix ++ "," ++ payload)%string with (prefix ++ String "," payload)%string.
    rewrite split_at_sep by exact Hp.
    rewrite split_without_sep by exact Hd. reflexivity.
  - intros url Hr Hu.
    rewrite (fileToGenerativePart_run _ _ Hr).
    rewrite split_without_sep by exact Hu. reflexivity.
Qed.

Lemma X3_data_url_payload_witness :
  fileToGenerativePart (P := Scripted.platform) (Scripted.pdf "scan1.pdf") Scripted.terse
  = (Ok {| data := Some "AAAA"; mimeType := "application/pdf" |}, Scripted.terse).
Proof.
  apply (proj1 (@X3_data_url_payload Scripted.platform (Scripted.pdf "scan1.pdf")
                  Scripted.terse Scripted.terse)
           "data:application/pdf;base64" "AAAA");
    reflexivity.
Defined.

(** X4.  The properties a kind's response schema declares are the fields
    of its record, and every required name is a declared property (for the
    items of an invoice's [line_items] too).  Normalization reads the
    declared properties and nothing else: two mappings that agree on them
    give the same record, whatever other fields they hold; and each
    declared property reaches the record, since supplying it alone changes
    the result. *)
Theorem X4_only_declared_fields_are_read :
  (forall kind,
      property_names (schema_of kind) = field_names kind /\
      incl (required_names (schema_of kind)) (property_names (schema_of kind)) /\
      (forall id fileName props props',
          (forall k, In k (property_names (schema_of kind)) ->
                     assoc k props = assoc k props') ->
          normalize kind id fileName (JObj props)
          = normalize kind id fileName (JObj props')) /\
      (forall id fileName k,
          In k (property_names (schema_of kind)) ->
          normalize kind id fileName (JObj [(k, JStr "x")])
          <> normalize kind id fileName (JObj []))) /\
  (exists line_items items,
      property_schema (schema_of Invoice) "line_items" = Some line_items /\
      items_schema line_items = Some items /\
      incl (required_names items) (property_names items)).
Proof.
  split.
  - intros kind.
    split; [destruct kind; reflexivity |].
    split.
    { destruct kind; intros k Hk; simpl in *; intuition. }
    split.
    + intros id fileName props props' Hagree.
      destruct kind; simpl in Hagree; simpl;
        repeat match goal with
               | |- context [assoc ?k props] =>
                   rewrite (Hagree k) by (simpl; tauto)
               end;
        reflexivity.
    + intros id fileName k Hk.
      destruct kind; simpl in Hk;
        repeat (destruct Hk as [<- | Hk]; [simpl; discriminate |]);
        contradiction.
  - eexists _, _. split; [reflexivity |]. split; [reflexivity |].
    intros k Hk. simpl in *. intuition.
Qed.

Lemma X4_only_declared_fields_are_read_witness :
  normalize Invoice "4fzyo82mv" "invoice1.pdf" (JObj Samples.acme_with_extras)
  = normalize Invoice "4fzyo82mv" "invoice1.pdf" (JObj Samples.acme_props).
Proof.
  apply (proj1 (proj2 (proj2 (proj1 X4_only_declared_fields_are_read Invoice)))).
  intros k Hk. simpl in Hk.
  repeat (destruct Hk as [<- | Hk]; [reflexivity |]).
  contradiction.
Defined.

Lemma normalize_non_object kind id fileName raw :
  raw <> JNull ->
  (forall props, raw <> JObj props) ->
  normalize kind id fileName raw = normalize kind id fileName (JObj []).
Proof.
  intros Hn Ho.
  destruct kind, raw; try reflexivity; try congruence;
    exfalso; eapply Ho; reflexivity.
Qed.

Lemma normalize_null kind id fileName :
  normalize kind id fileName JNull
  = Throw (TypeError "Cannot read properties of null").
Proof. destruct kind; reflexivity. Qed.

Lemma normalize_object_ok kind id fileName props :
  exists r, normalize kind id fileName (JObj props) = Ok r.
Proof.
  destruct (normalize_fields kind id fileName props) as (r & H & _).
  exists r. exact H.
Qed.

(** X5.  When the model answers with the JSON text [null], reading the
    first field throws after the identifier was drawn; the error is caught
    like any other, so the file gets the failure placeholder, with the
    identifier of a second draw.  When the answer is any other value that
    is not an object (a number, a string, a boolean, an array), every
    field reads as absent and the file gets the record of all defaults,
    the same as for the empty object, not a placeholder. *)
Theorem X5_null_and_non_object_answers :
  forall (P : Platform) kind f (w w1 : World P),
    (forall s0 w2 s w3,
        extract kind f w = (Ok JNull, w1) ->
        random_toString36 P w1 = (s0, w2) ->
        random_toString36 P
          (console_error P (failure_message f)
             (TypeError "Cannot read properties of null") w2) = (s, w3) ->
        run kind [f] w
        = (Ok [failure_placeholder kind (substr 2 9 s) (File.name f)], w3)) /\
    (forall raw s w2,
        extract kind f w = (Ok raw, w1) ->
        raw <> JNull ->
        (forall props, raw <> JObj props) ->
        random_toString36 P w1 = (s, w2) ->
        exists r,
          normalize kind (substr 2 9 s) (File.name f) (JObj []) = Ok r /\
          run kind [f] w = (Ok [r], w2)).
Proof.
  intros P kind f w w1. split.
  - intros s0 w2 s w3 He Hs0 Hs. apply run_of_trace.
    apply trace_cons with (w1 := w3); [| apply trace_nil].
    eapply (produced_read_failed kind f);
      [exact He | exact Hs0 | apply normalize_null | exact Hs].
  - intros raw s w2 He Hn Ho Hs.
    destruct (normalize_object_ok kind (substr 2 9 s) (File.name f) [])
      as (r & Hr).
    exists r. split; [exact Hr |].
    eapply run_single_record; [exact He | exact Hs |].
    rewrite (normalize_non_object kind _ _ Hn Ho). exact Hr.
Qed.

Lemma X5_null_and_non_object_answers_witness :
  run (P := Scripted.platform) Invoice [Scripted.pdf "invoice1.pdf"] Samples.null_answer
  = (Ok [failure_placeholder Invoice "k2j1x9" "invoice1.pdf"],
     {| Scripted.replies := []; Scripted.draws := [];
        Scripted.console :=
          [("Error processing invoice1.pdf:",
            TypeError "Cannot read properties of null")] |}).
Proof.
  refine (proj1 (@X5_null_and_non_object_answers Scripted.platform Invoice
                   (Scripted.pdf "invoice1.pdf") Samples.null_answer _)
            "0.4fzyo82mvyr" _ "0.k2j1x9" _ _ _ _);
    reflexivity.
Defined.

(* ================================================================== *)
(** * Further properties of the batch runs *)
(* ================================================================== *)

Lemma trace_app {W X} (R : File.t -> W -> X -> W -> Prop) a w ra w1 :
  trace R a w ra w1 ->
  forall b rb w2, trace R b w1 rb w2 -> trace R (a ++ b) w (ra ++ rb) w2.
Proof.
  induction 1 as [w | f files w r wa recs wb Hr _ IH]; intros b rb w2 Hb; simpl.
  - exact Hb.
  - apply trace_cons with (w1 := wa); [exact Hr | apply IH; exact Hb].
Qed.

Lemma run_inv_trace {P : Platform} kind files (w : World P) recs w' :
  run kind files w = (Ok recs, w') -> trace (produced kind) files w recs w'.
Proof.
  intros H. destruct (run_trace kind files w) as (recs0 & w0 & Hrun & Ht).
  rewrite Hrun in H. injection H as <- <-. exact Ht.
Qed.

Lemma run_app {P : Platform} kind a b (w : World P) ra w1 rb w2 :
  run kind a w = (Ok ra, w1) ->
  run kind b w1 = (Ok rb, w2) ->
  run kind (a ++ b) w = (Ok (ra ++ rb), w2).
Proof.
  intros Ha Hb. apply run_of_trace.
  eapply trace_app; apply run_inv_trace; eassumption.
Qed.

Lemma map_InvoiceRecord_inj l l' :
  map InvoiceRecord l = map InvoiceRecord l' -> l = l'.
Proof.
  revert l'. induction l as [|x l IH]; intros [|y l'] H; simpl in H;
    try discriminate; [reflexivity |].
  injection H as -> H. f_equal. apply IH. exact H.
Qed.

Lemma map_BusinessCardRecord_inj l l' :
  map BusinessCardRecord l = map BusinessCardRecord l' -> l = l'.
Proof.
  revert l'. induction l as [|x l IH]; intros [|y l'] H; simpl in H;
    try discriminate; [reflexivity |].
  injection H as -> H. f_equal. apply IH. exact H.
Qed.

Lemma run_invoice_loop {P : Platform} files (w : World P) recs w' :
  with_array (for_of files InvoiceTab.iteration) w = (Ok recs, w') <->
  run Invoice files w = (Ok (map InvoiceRecord recs), w').
Proof.
  split; intros H.
  - simpl. rewrite (bind_Ok _ _ _ H). reflexivity.
  - destruct (invoice_loop files w) as (recs0 & w0 & Hl & _).
    simpl in H. rewrite (bind_Ok _ _ _ Hl) in H. unfold ret in H.
    injection H as H <-. apply map_InvoiceRecord_inj in H. subst. exact Hl.
Qed.

Lemma run_card_loop {P : Platform} files (w : World P) recs w' :
  with_array (for_of files BusinessCardTab.iteration) w = (Ok recs, w') <->
  run BusinessCard files w = (Ok (map BusinessCardRecord recs), w').
Proof.
  split; intros H.
  - simpl. rewrite (bind_Ok _ _ _ H). reflexivity.
  - destruct (card_loop files w) as (recs0 & w0 & Hl & _).
    simpl in H. rewrite (bind_Ok _ _ _ Hl) in H. unfold ret in H.
    injection H as H <-. apply map_BusinessCardRecord_inj in H. subst. exact Hl.
Qed.

Lemma invoice_loop_app {P : Platform} a b (w : World P) ra w1 rb w2 :
  with_array (for_of a InvoiceTab.iteration) w = (Ok ra, w1) ->
  with_array (for_of b InvoiceTab.iteration) w1 = (Ok rb, w2) ->
  with_array (for_of (a ++ b) InvoiceTab.iteration) w = (Ok (ra ++ rb), w2).
Proof.
  intros Ha Hb. apply run_invoice_loop. rewrite map_app.
  eapply run_app; apply run_invoice_loop; eassumption.
Qed.

Lemma card_loop_app {P : Platform} a b (w : World P) ra w1 rb w2 :
  with_array (for_of a BusinessCardTab.iteration) w = (Ok ra, w1) ->
  with_array (for_of b BusinessCardTab.iteration) w1 = (Ok rb, w2) ->
  with_array (for_of (a ++ b) BusinessCardTab.iteration) w = (Ok (ra ++ rb), w2).
Proof.
  intros Ha Hb. apply run_card_loop. rewrite map_app.
  eapply run_app; apply run_card_loop; eassumption.
Qed.

(** What [processFiles] returns on a non-empty queue, given its loop. *)
Lemma invoice_processFiles_of_loop {P : Platform} st (w : World P) recs w' :
  InvoiceTab.files st <> [] ->
  with_array (for_of (InvoiceTab.files st) InvoiceTab.iteration) w = (Ok recs, w') ->
  InvoiceTab.processFiles st w
  = (Ok (InvoiceTab.completed_state recs (InvoiceTab.processing_state st)), w').
Proof.
  intros Hne Hl.
  destruct (invoice_processFiles_run st w Hne) as (recs0 & w0 & Hl0 & Hp & _).
  rewrite Hl in Hl0. injection Hl0 as <- <-. exact Hp.
Qed.

Lemma card_processFiles_of_loop {P : Platform} st (w : World P) recs w' :
  BusinessCardTab.files st <> [] ->
  with_array (for_of (BusinessCardTab.files st) BusinessCardTab.iteration) w
  = (Ok recs, w') ->
  BusinessCardTab.processFiles st w
  = (Ok (BusinessCardTab.completed_state recs (BusinessCardTab.processing_state st)), w').
Proof.
  intros Hne Hl.
  destruct (card_processFiles_run st w Hne) as (recs0 & w0 & Hl0 & Hp & _).
  rewrite Hl in Hl0. injection Hl0 as <- <-. exact Hp.
Qed.

Lemma invoice_completed_state_eq recs st :
  InvoiceTab.completed_state recs st
  = InvoiceTab.mkState [] (InvoiceTab.invoices st ++ recs) success
                       (InvoiceTab.errorMsg st).
Proof. reflexivity. Qed.

Lemma invoice_started_invoices fs st :
  InvoiceTab.invoices (InvoiceTab.processing_state (InvoiceTab.handleFilesSelected fs st))
  = InvoiceTab.invoices st.
Proof. reflexivity. Qed.

Lemma invoice_started_errorMsg st :
  InvoiceTab.errorMsg (InvoiceTab.processing_state st) = None.
Proof. reflexivity. Qed.

Lemma invoice_two_batches_state a b ra rb st :
  InvoiceTab.completed_state rb
    (InvoiceTab.processing_state
       (InvoiceTab.handleFilesSelected b
          (InvoiceTab.completed_state ra
             (InvoiceTab.processing_state (InvoiceTab.handleFilesSelected a st)))))
  = InvoiceTab.completed_state (ra ++ rb)
      (InvoiceTab.processing_state (InvoiceTab.handleFilesSelected (a ++ b) st)).
Proof.
  rewrite (invoice_completed_state_eq rb), (invoice_completed_state_eq (ra ++ rb)).
  rewrite !invoice_started_errorMsg, !invoice_started_invoices.
  rewrite (invoice_completed_state_eq ra).
  cbn [InvoiceTab.invoices].
  rewrite invoice_started_invoices, app_assoc. reflexivity.
Qed.

Lemma card_completed_state_eq recs st :
  BusinessCardTab.completed_state recs st
  = BusinessCardTab.mkState [] (BusinessCardTab.cards st ++ recs) success
                            (BusinessCardTab.errorMsg st)
                            (BusinessCardTab.copyFeedback st).
Proof. reflexivity. Qed.

Lemma card_started_cards fs st :
  BusinessCardTab.cards
    (BusinessCardTab.processing_state (BusinessCardTab.handleFilesSelected fs st))
  = BusinessCardTab.cards st.
Proof. reflexivity. Qed.

Lemma card_started_errorMsg st :
  BusinessCardTab.errorMsg (BusinessCardTab.processing_state st) = None.
Proof. reflexivity. Qed.

Lemma card_started_copyFeedback fs st :
  BusinessCardTab.copyFeedback
    (BusinessCardTab.processing_state (BusinessCardTab.handleFilesSelected fs st))
  = BusinessCardTab.copyFeedback st.
Proof. reflexivity. Qed.

Lemma card_two_batches_state a b ra rb st :
  BusinessCardTab.completed_state rb
    (BusinessCardTab.processing_state
       (BusinessCardTab.handleFilesSelected b
          (BusinessCardTab.completed_state ra
             (BusinessCardTab.processing_state
                (BusinessCardTab.handleFilesSelected a st)))))
  = BusinessCardTab.completed_state (ra ++ rb)
      (BusinessCardTab.processing_state
         (BusinessCardTab.handleFilesSelected (a ++ b) st)).
Proof.
  rewrite (card_completed_state_eq rb), (card_completed_state_eq (ra ++ rb)).
  rewrite !card_started_errorMsg, !card_started_cards, !card_started_copyFeedback.
  rewrite (card_completed_state_eq ra).
  cbn [BusinessCardTab.cards BusinessCardTab.copyFeedback].
  rewrite card_started_cards, card_started_copyFeedback, app_assoc. reflexivity.
Qed.

Lemma invoice_two_batches {P : Platform} a b st (w : World P) st1 w1 st2 w2 :
  a <> [] -> b <> [] ->
  InvoiceTab.processFiles (InvoiceTab.handleFilesSelected a st) w = (Ok st1, w1) ->
  InvoiceTab.processFiles (InvoiceTab.handleFilesSelected b st1) w1 = (Ok st2, w2) ->
  InvoiceTab.processFiles (InvoiceTab.handleFilesSelected (a ++ b) st) w
  = (Ok st2, w2).
Proof.
  intros Ha Hb H1 H2.
  destruct (invoice_loop a w) as (ra & wa & Hla & _).
  rewrite (invoice_processFiles_of_loop
             (InvoiceTab.handleFilesSelected a st) w Ha Hla) in H1.
  injection H1 as E1 E2. subst w1.
  destruct (invoice_loop b wa) as (rb & wb & Hlb & _).
  rewrite (invoice_processFiles_of_loop
             (InvoiceTab.handleFilesSelected b st1) wa Hb Hlb) in H2.
  injection H2 as E3 E4. subst w2.
  assert (Hab : a ++ b <> []) by (destruct a; [congruence | discriminate]).
  assert (Hl : with_array (for_of (a ++ b) InvoiceTab.iteration) w
               = (Ok (ra ++ rb), wb))
    by (eapply invoice_loop_app; eassumption).
  rewrite (invoice_processFiles_of_loop
             (InvoiceTab.handleFilesSelected (a ++ b) st) w Hab Hl).
  rewrite <- E3, <- E1. rewrite invoice_two_batches_state. reflexivity.
Qed.

Lemma card_two_batches {P : Platform} a b st (w : World P) st1 w1 st2 w2 :
  a <> [] -> b <> [] ->
  BusinessCardTab.processFiles (BusinessCardTab.handleFilesSelected a st) w
  = (Ok st1, w1) ->
  BusinessCardTab.processFiles (BusinessCardTab.handleFilesSelected b st1) w1
  = (Ok st2, w2) ->
  BusinessCardTab.processFiles (BusinessCardTab.handleFilesSelected (a ++ b) st) w
  = (Ok st2, w2).
Proof.
  intros Ha Hb H1 H2.
  destruct (card_loop a w) as (ra & wa & Hla & _).
  rewrite (card_processFiles_of_loop
             (BusinessCardTab.handleFilesSelected a st) w Ha Hla) in H1.
  injection H1 as E1 E2. subst w1.
  destruct (card_loop b wa) as (rb & wb & Hlb & _).
  rewrite (card_processFiles_of_loop
             (BusinessCardTab.handleFilesSelected b st1) wa Hb Hlb) in H2.
  injection H2 as E3 E4. subst w2.
  assert (Hab : a ++ b <> []) by (destruct a; [congruence | discriminate]).
  assert (Hl : with_array (for_of (a ++ b) BusinessCardTab.iteration) w
               = (Ok (ra ++ rb), wb))
    by (eapply card_loop_app; eassumption).
  rewrite (card_processFiles_of_loop
             (BusinessCardTab.handleFilesSelected (a ++ b) st) w Hab Hl).
  rewrite <- E3, <- E1. rewrite card_two_batches_state. reflexivity.
Qed.

(** X6.  Batches compose: running a queue [a] and then, from the world it
    left, a queue [b] gives the records of the single run over [a ++ b].
    For either tab, selecting and processing [a] and then selecting and
    processing [b] ends in the very state and world of selecting and
    processing [a ++ b] at once. *)
Theorem X6_batches_compose :
  forall (P : Platform) a b,
    (forall kind (w : World P) ra w1 rb w2,
        run kind a w = (Ok ra, w1) ->
        run kind b w1 = (Ok rb, w2) ->
        run kind (a ++ b) w = (Ok (ra ++ rb), w2)) /\
    (a <> [] -> b <> [] ->
     forall st (w : World P) st1 w1 st2 w2,
       InvoiceTab.processFiles (InvoiceTab.handleFilesSelected a st) w = (Ok st1, w1) ->
       InvoiceTab.processFiles (InvoiceTab.handleFilesSelected b st1) w1 = (Ok st2, w2) ->
       InvoiceTab.processFiles (InvoiceTab.handleFilesSelected (a ++ b) st) w
       = (Ok st2, w2)) /\
    (a <> [] -> b <> [] ->
     forall st (w : World P) st1 w1 st2 w2,
       BusinessCardTab.processFiles (BusinessCardTab.handleFilesSelected a st) w
       = (Ok st1, w1) ->
       BusinessCardTab.processFiles (BusinessCardTab.handleFilesSelected b st1) w1
       = (Ok st2, w2) ->
       BusinessCardTab.processFiles (BusinessCardTab.handleFilesSelected (a ++ b) st) w
       = (Ok st2, w2)).
Proof.
  intros P a b. split; [| split].
  - intros kind w ra w1 rb w2. apply run_app.
  - intros Ha Hb st w st1 w1 st2 w2. apply invoice_two_batches; assumption.
  - intros Ha Hb st w st1 w1 st2 w2. apply card_two_batches; assumption.
Qed.

Lemma X6_batches_compose_witness :
  exists st1 w1 st2 w2,
    InvoiceTab.processFiles (P := Scripted.platform)
      (InvoiceTab.handleFilesSelected [Scripted.pdf "invoice1.pdf"]
         Scripted.invoice_queue) Scripted.mixed = (Ok st1, w1) /\
    InvoiceTab.processFiles (P := Scripted.platform)
      (InvoiceTab.handleFilesSelected
         [Scripted.pdf "scan1.pdf"; Scripted.pdf "invoice3.pdf"] st1) w1
    = (Ok st2, w2) /\
    InvoiceTab.processFiles (P := Scripted.platform)
      (InvoiceTab.handleFilesSelected
         ([Scripted.pdf "invoice1.pdf"]
            ++ [Scripted.pdf "scan1.pdf"; Scripted.pdf "invoice3.pdf"])
         Scripted.invoice_queue) Scripted.mixed
    = (Ok st2, w2).
Proof.
  do 4 eexists. split; [vm_compute; reflexivity |].
  split; [vm_compute; reflexivity |].
  eapply (proj1 (proj2 (X6_batches_compose Scripted.platform
                          [Scripted.pdf "invoice1.pdf"]
                          [Scripted.pdf "scan1.pdf"; Scripted.pdf "invoice3.pdf"])));
    try discriminate; vm_compute; reflexivity.
Defined.

(* ================================================================== *)
(** * Further properties of the components *)
(* ================================================================== *)

Lemma invoice_step_grows {P : Platform} (c c' : InvoiceTab.State * World P) :
  InvoiceTab.step c c' ->
  exists more,
    InvoiceTab.invoices (fst c') = InvoiceTab.invoices (fst c) ++ more.
Proof.
  intros H. destruct H; simpl.
  - exists []. rewrite app_nil_r. reflexivity.
  - exists []. rewrite app_nil_r. reflexivity.
  - exists []. rewrite app_nil_r. reflexivity.
  - exists newInvoices. reflexivity.
Qed.

Lemma card_step_grows {P : Platform} (c c' : BusinessCardTab.State * World P) :
  BusinessCardTab.step c c' ->
  exists more,
    BusinessCardTab.cards (fst c') = BusinessCardTab.cards (fst c) ++ more.
Proof.
  intros H. destruct H; simpl;
    try (exists []; rewrite app_nil_r; reflexivity).
  exists newCards. reflexivity.
Qed.

(** X7.  Results are only ever extended: along any sequence of steps of
    either component, the results of the earlier state are a prefix of the
    results of the later one.  No record is removed, replaced or
    reordered once it is shown. *)
Theorem X7_results_only_grow :
  forall (P : Platform),
    (forall c c' : InvoiceTab.State * World P,
        clos_refl_trans _ InvoiceTab.step c c' ->
        exists more,
          InvoiceTab.invoices (fst c') = InvoiceTab.invoices (fst c) ++ more) /\
    (forall c c' : BusinessCardTab.State * World P,
        clos_refl_trans _ BusinessCardTab.step c c' ->
        exists more,
          BusinessCardTab.cards (fst c') = BusinessCardTab.cards (fst c) ++ more).
Proof.
  intros P. split.
  - intros c c' H.
    induction H as [c c' Hs | c | c c1 c' _ IH1 _ IH2].
    + exact (invoice_step_grows Hs).
    + exists []. rewrite app_nil_r. reflexivity.
    + destruct IH1 as (m1 & H1). destruct IH2 as (m2 & H2).
      exists (m1 ++ m2). rewrite H2, H1, app_assoc. reflexivity.
  - intros c c' H.
    induction H as [c c' Hs | c | c c1 c' _ IH1 _ IH2].
    + exact (card_step_grows Hs).
    + exists []. rewrite app_nil_r. reflexivity.
    + destruct IH1 as (m1 & H1). destruct IH2 as (m2 & H2).
      exists (m1 ++ m2). rewrite H2, H1, app_assoc. reflexivity.
Qed.

Lemma X7_results_only_grow_witness :
  exists more,
    InvoiceTab.invoices
      (InvoiceTab.processing_state
         (InvoiceTab.handleFilesSelected Scripted.batch3 Scripted.invoice_queue))
    = InvoiceTab.invoices Scripted.invoice_queue ++ more.
Proof.
  apply (proj1 (X7_results_only_grow Scripted.platform)
           (Scripted.invoice_queue, Scripted.mixed)
           (InvoiceTab.processing_state
              (InvoiceTab.handleFilesSelected Scripted.batch3 Scripted.invoice_queue),
            Scripted.mixed)).
  eapply rt_trans; apply rt_step.
  - apply (InvoiceTab.step_select (P := Scripted.platform)
             Scripted.invoice_queue Scripted.mixed Scripted.batch3).
    discriminate.
  - apply (InvoiceTab.step_started (P := Scripted.platform)); discriminate.
Defined.

Lemma is_processing_false s : is_processing s = false <-> s <> processing.
Proof. destruct s; simpl; split; intros H; congruence. Qed.

Lemma ltb_length_nonempty {A} (l : list A) :
  (0 <? List.length l)%nat = true <-> l <> [].
Proof.
  destruct l; split; intros H.
  - discriminate.
  - congruence.
  - discriminate.
  - reflexivity.
Qed.

Lemma invoice_ui_step_is_step {P : Platform} (c c' : InvoiceTab.State * World P) :
  InvoiceTabView.ui_step c c' -> c' = c \/ InvoiceTab.step c c'.
Proof.
  intros H. destruct H as [st w tf tv Hd | st w Hshow Hdis | st w recs w' Hs Hl].
  - unfold UploadArea.is_disabled in Hd. simpl in Hd.
    apply is_processing_false in Hd.
    destruct tf as [[|f fs]|]; simpl; auto.
    right. apply InvoiceTab.step_select. exact Hd.
  - right. apply ltb_length_nonempty in Hshow.
    apply is_processing_false in Hdis.
    unfold InvoiceTabView.processFiles_started.
    rewrite (proj2 (length_zero_nil _) Hshow).
    apply InvoiceTab.step_started; assumption.
  - right. apply InvoiceTab.step_completed; assumption.
Qed.

Lemma card_ui_step_is_step {P : Platform} (c c' : BusinessCardTab.State * World P) :
  BusinessCardTabView.ui_step c c' -> c' = c \/ BusinessCardTab.step c c'.
Proof.
  intros H.
  destruct H as [st w tf tv Hd | st w Hshow Hdis | st w recs w' Hs Hl
                | st w Hr | st w].
  - unfold UploadArea.is_disabled in Hd. simpl in Hd.
    apply is_processing_false in Hd.
    destruct tf as [[|f fs]|]; simpl; auto.
    right. apply BusinessCardTab.step_select. exact Hd.
  - right. apply ltb_length_nonempty in Hshow.
    apply is_processing_false in Hdis.
    unfold BusinessCardTabView.processFiles_started.
    rewrite (proj2 (length_zero_nil _) Hshow).
    apply BusinessCardTab.step_started; assumption.
  - right. apply BusinessCardTab.step_completed; assumption.
  - right. apply BusinessCardTab.step_copied.
  - right. apply BusinessCardTab.step_copy_expired.
Qed.

Lemma invoice_ui_invariant {P : Platform} (c : InvoiceTab.State * World P) :
  InvoiceTabView.ui_reachable c ->
  InvoiceTab.errorMsg (fst c) = None /\
  (InvoiceTab.status (fst c) = processing -> InvoiceTab.files (fst c) <> []) /\
  (InvoiceTab.status (fst c) = idle -> InvoiceTab.invoices (fst c) = []) /\
  InvoiceTab.reachable c.
Proof.
  induction 1 as [w | c c' _ IH Hstep].
  - simpl. repeat split; try discriminate; try reflexivity.
    apply InvoiceTab.reachable_initial.
  - destruct IH as (He & Hp & Hi & Hr).
    assert (Hr' : InvoiceTab.reachable c').
    { destruct (invoice_ui_step_is_step Hstep) as [-> | Hs]; [exact Hr |].
      eapply InvoiceTab.reachable_step; eassumption. }
    destruct Hstep as [st w tf tv Hd | st w Hshow Hdis | st w recs w' Hs Hl];
      cbn [fst] in *.
    + destruct tf as [[|f fs]|]; cbn [UploadArea.handleFileChange fst].
      * auto.
      * change (0 <? List.length (f :: fs))%nat with true. cbn iota. cbn [fst].
        split; [reflexivity |]. split; [intros _; discriminate |].
        split; [exact Hi | exact Hr'].
      * auto.
    + apply ltb_length_nonempty in Hshow.
      revert Hr'. unfold InvoiceTabView.processFiles_started.
      rewrite (proj2 (length_zero_nil _) Hshow). intros Hr'.
      split; [reflexivity |]. split; [intros _; exact Hshow |].
      split; [discriminate | exact Hr'].
    + split; [exact He |]. split; [discriminate |].
      split; [discriminate | exact Hr'].
Qed.

Lemma card_ui_invariant {P : Platform} (c : BusinessCardTab.State * World P) :
  BusinessCardTabView.ui_reachable c ->
  BusinessCardTab.errorMsg (fst c) = None /\
  (BusinessCardTab.status (fst c) = processing -> BusinessCardTab.files (fst c) <> []) /\
  (BusinessCardTab.status (fst c) = idle -> BusinessCardTab.cards (fst c) = []) /\
  BusinessCardTab.reachable c.
Proof.
  induction 1 as [w | c c' _ IH Hstep].
  - simpl. repeat split; try discriminate; try reflexivity.
    apply BusinessCardTab.reachable_initial.
  - destruct IH as (He & Hp & Hi & Hr).
    assert (Hr' : BusinessCardTab.reachable c').
    { destruct (card_ui_step_is_step Hstep) as [-> | Hs]; [exact Hr |].
      eapply BusinessCardTab.reachable_step; eassumption. }
    destruct Hstep as [st w tf tv Hd | st w Hshow Hdis | st w recs w' Hs Hl
                      | st w Hres | st w];
      cbn [fst] in *.
    + destruct tf as [[|f fs]|]; cbn [UploadArea.handleFileChange fst].
      * auto.
      * change (0 <? List.length (f :: fs))%nat with true. cbn iota. cbn [fst].
        split; [reflexivity |]. split; [intros _; discriminate |].
        split; [exact Hi | exact Hr'].
      * auto.
    + apply ltb_length_nonempty in Hshow.
      revert Hr'. unfold BusinessCardTabView.processFiles_started.
      rewrite (proj2 (length_zero_nil _) Hshow). intros Hr'.
      split; [reflexivity |]. split; [intros _; exact Hshow |].
      split; [discriminate | exact Hr'].
    + split; [exact He |]. split; [discriminate |].
      split; [discriminate | exact Hr'].
    + split; [exact He |]. split; [exact Hp |]. split; [exact Hi | exact Hr'].
    + split; [exact He |]. split; [exact Hp |]. split; [exact Hi | exact Hr'].
Qed.

(** X8.  Through the rendered controls the empty-queue guard of
    [processFiles] is never taken: the Extract Data button exists only
    while the queue is non-empty and the upload area ignores an empty
    selection, so in every state the interface can reach [errorMsg] is
    [null] (neither "Please upload ..." message is ever shown), a run in
    progress has a non-empty queue, and [status] is [idle] only while
    there are no results. *)
Theorem X8_empty_queue_error_unreachable :
  forall (P : Platform),
    (forall st (w : World P),
        InvoiceTabView.ui_reachable (st, w) ->
        InvoiceTab.errorMsg st = None /\
        (InvoiceTab.status st = processing -> InvoiceTab.files st <> []) /\
        (InvoiceTab.status st = idle -> InvoiceTab.invoices st = [])) /\
    (forall st (w : World P),
        BusinessCardTabView.ui_reachable (st, w) ->
        BusinessCardTab.errorMsg st = None /\
        (BusinessCardTab.status st = processing -> BusinessCardTab.files st <> []) /\
        (BusinessCardTab.status st = idle -> BusinessCardTab.cards st = [])).
Proof.
  intros P. split; intros st w H.
  - destruct (invoice_ui_invariant H) as (He & Hp & Hi & _). auto.
  - destruct (card_ui_invariant H) as (He & Hp & Hi & _). auto.
Qed.

Lemma X8_empty_queue_error_unreachable_witness :
  InvoiceTab.errorMsg
    (InvoiceTabView.processFiles_started
       (InvoiceTab.handleFilesSelected Scripted.batch3 InvoiceTab.initial)) = None.
Proof.
  refine (proj1 (proj1 (X8_empty_queue_error_unreachable Scripted.platform)
                   _ Scripted.mixed _)).
  eapply InvoiceTabView.ui_reachable_step.
  - eapply InvoiceTabView.ui_reachable_step.
    + apply (InvoiceTabView.ui_reachable_initial (P := Scripted.platform) Scripted.mixed).
    + apply (InvoiceTabView.ui_files_changed (P := Scripted.platform)
               InvoiceTab.initial Scripted.mixed (Some Scripted.batch3) "C:/fakepath/invoice1.pdf").
      reflexivity.
  - apply (InvoiceTabView.ui_extract_clicked (P := Scripted.platform)); reflexivity.
Defined.

(** X9.  While a run is in progress the interface admits no second run
    and no new selection: from a state whose [status] is [processing] the
    only step of the invoice tab is the completion of the running loop,
    with the records of that loop over the queue as it stands; the
    business card tab can besides only toggle [copyFeedback]. *)
Theorem X9_single_run_in_flight :
  forall (P : Platform),
    (forall st (w : World P) c',
        InvoiceTab.status st = processing ->
        InvoiceTabView.ui_step (st, w) c' ->
        exists recs w',
          with_array (for_of (InvoiceTab.files st) InvoiceTab.iteration) w
          = (Ok recs, w') /\
          c' = (InvoiceTab.completed_state recs st, w')) /\
    (forall st (w : World P) c',
        BusinessCardTab.status st = processing ->
        BusinessCardTabView.ui_step (st, w) c' ->
        (exists recs w',
            with_array (for_of (BusinessCardTab.files st) BusinessCardTab.iteration) w
            = (Ok recs, w') /\
            c' = (BusinessCardTab.completed_state recs st, w')) \/
        (exists b, c' = (BusinessCardTab.setCopyFeedback b st, w))).
Proof.
  intros P. split.
  - intros st w c' Hs Hstep.
    inversion Hstep as [st0 w0 tf tv Hd | st0 w0 Hshow Hdis | st0 w0 recs w' Hs0 Hl];
      subst.
    + unfold UploadArea.is_disabled in Hd. simpl in Hd. rewrite Hs in Hd. discriminate.
    + unfold InvoiceTabView.extract_button_disabled in Hdis.
      rewrite Hs in Hdis. discriminate.
    + exists recs, w'. split; [exact Hl | reflexivity].
  - intros st w c' Hs Hstep.
    inversion Hstep as [st0 w0 tf tv Hd | st0 w0 Hshow Hdis | st0 w0 recs w' Hs0 Hl
                       | st0 w0 Hres | st0 w0];
      subst.
    + unfold UploadArea.is_disabled in Hd. simpl in Hd. rewrite Hs in Hd. discriminate.
    + unfold BusinessCardTabView.extract_button_disabled in Hdis.
      rewrite Hs in Hdis. discriminate.
    + left. exists recs, w'. split; [exact Hl | reflexivity].
    + right. exists true. reflexivity.
    + right. exists false. reflexivity.
Qed.

Lemma X9_single_run_in_flight_witness :
  exists recs w',
    with_array
      (for_of (InvoiceTab.files (InvoiceTab.processing_state Scripted.invoice_queue))
              (InvoiceTab.iteration (P := Scripted.platform))) Scripted.mixed
    = (Ok recs, w') /\
    InvoiceTab.status
      (InvoiceTab.completed_state recs
         (InvoiceTab.processing_state Scripted.invoice_queue)) = success.
Proof.
  destruct (proj1 (X9_single_run_in_flight Scripted.platform)
              (InvoiceTab.processing_state Scripted.invoice_queue) Scripted.mixed
              _ eq_refl
              (InvoiceTabView.ui_completed (P := Scripted.platform)
                 (InvoiceTab.processing_state Scripted.invoice_queue) Scripted.mixed
                 eq_refl eq_refl))
    as (recs & w' & Hl & _).
  exists recs, w'. split; [exact Hl | reflexivity].
Defined.

(* ================================================================== *)
(** * Records in reachable states and the CSV export *)
(* ================================================================== *)

Lemma nullish_not_null x d : d <> JNull -> x ?? d <> JNull.
Proof.
  intros Hd. destruct x as [v|]; [destruct v |]; simpl; congruence.
Qed.

Lemma normalize_well_formed kind id fileName raw r :
  String.length id <= 9 ->
  normalize kind id fileName raw = Ok r ->
  record_well_formed r.
Proof.
  intros Hid Hn.
  destruct kind, raw; simpl in Hn; inversion Hn; subst; clear Hn;
    unfold record_well_formed, InvoiceTabView.well_formed;
    cbn -[nullish String.length];
    repeat split; try exact Hid; try discriminate;
    apply nullish_not_null; discriminate.
Qed.

Lemma placeholder_well_formed kind id fileName :
  String.length id <= 9 ->
  record_well_formed (failure_placeholder kind id fileName).
Proof.
  intros Hid. destruct kind; simpl; unfold InvoiceTabView.well_formed; simpl;
    repeat split; try exact Hid; discriminate.
Qed.

Lemma produced_well_formed {P : Platform} kind f (w : World P) r w' :
  produced kind f w r w' -> record_well_formed r.
Proof.
  intros H. destruct H.
  - eapply normalize_well_formed; [apply substring_length_le | eassumption].
  - apply placeholder_well_formed. apply substring_length_le.
  - apply placeholder_well_formed. apply substring_length_le.
Qed.

Lemma trace_Forall {W X} (R : File.t -> W -> X -> W -> Prop) (Q : X -> Prop) :
  (forall f w r w', R f w r w' -> Q r) ->
  forall files w recs w', trace R files w recs w' -> Forall Q recs.
Proof.
  intros HR files w recs w' H.
  induction H as [w | f files w r w1 recs w2 Hr _ IH].
  - apply Forall_nil.
  - apply Forall_cons; eauto.
Qed.

Lemma invoice_loop_well_formed {P : Platform} files (w : World P) recs w' :
  with_array (for_of files InvoiceTab.iteration) w = (Ok recs, w') ->
  Forall InvoiceTabView.well_formed recs.
Proof.
  intros Hl. apply run_invoice_loop, run_inv_trace in Hl.
  apply trace_Forall with (Q := record_well_formed) in Hl.
  - rewrite Forall_map in Hl. exact Hl.
  - intros f w0 r w1. apply produced_well_formed.
Qed.

Lemma card_loop_well_formed {P : Platform} files (w : World P) recs w' :
  with_array (for_of files BusinessCardTab.iteration) w = (Ok recs, w') ->
  Forall (fun c => BusinessCardData.full_name c <> JNull /\
                   String.length (BusinessCardData.id c) <= 9) recs.
Proof.
  intros Hl. apply run_card_loop, run_inv_trace in Hl.
  apply trace_Forall with (Q := record_well_formed) in Hl.
  - rewrite Forall_map in Hl. exact Hl.
  - intros f w0 r w1. apply produced_well_formed.
Qed.

Lemma invoice_reachable_well_formed {P : Platform} (c : InvoiceTab.State * World P) :
  InvoiceTab.reachable c ->
  Forall InvoiceTabView.well_formed (InvoiceTab.invoices (fst c)).
Proof.
  induction 1 as [w | c c' _ IH Hstep].
  - apply Forall_nil.
  - destruct Hstep as [st w sel Hs | st w Hs Hf | st w Hs Hf | st w recs w' Hs Hl];
      cbn [fst] in *; try exact IH.
    change (InvoiceTab.invoices (InvoiceTab.completed_state recs st))
      with (InvoiceTab.invoices st ++ recs).
    apply Forall_app. split; [exact IH | exact (invoice_loop_well_formed _ _ Hl)].
Qed.

Lemma card_reachable_well_formed {P : Platform} (c : BusinessCardTab.State * World P) :
  BusinessCardTab.reachable c ->
  Forall (fun c => BusinessCardData.full_name c <> JNull /\
                   String.length (BusinessCardData.id c) <= 9)
         (BusinessCardTab.cards (fst c)).
Proof.
  induction 1 as [w | c c' _ IH Hstep].
  - apply Forall_nil.
  - destruct Hstep as [st w sel Hs | st w Hs Hf | st w Hs Hf | st w recs w' Hs Hl
                      | st w | st w];
      cbn [fst] in *; try exact IH.
    change (BusinessCardTab.cards (BusinessCardTab.completed_state recs st))
      with (BusinessCardTab.cards st ++ recs).
    apply Forall_app. split; [exact IH | exact (card_loop_well_formed _ _ Hl)].
Qed.

(** X10.  The records a component ever holds are those its loop made, so
    in every reachable state each invoice has a [supplier_name],
    [total_amount], [currency], [tax_amount] and [line_items] that are not
    [null] (the declared types allow [null] for the first four) and an
    identifier of at most nine characters; each business card has a
    [full_name] that is not [null] and such an identifier. *)
Theorem X10_records_never_null_where_defaulted :
  forall (P : Platform),
    (forall st (w : World P),
        InvoiceTab.reachable (st, w) ->
        Forall InvoiceTabView.well_formed (InvoiceTab.invoices st)) /\
    (forall st (w : World P),
        BusinessCardTab.reachable (st, w) ->
        Forall (fun c => BusinessCardData.full_name c <> JNull /\
                         String.length (BusinessCardData.id c) <= 9)
               (BusinessCardTab.cards st)).
Proof.
  intros P. split; intros st w H.
  - exact (invoice_reachable_well_formed H).
  - exact (card_reachable_well_formed H).
Qed.

Lemma after_mixed_reachable :
  InvoiceTab.reachable (P := Scripted.platform)
    (fst Samples.after_mixed, snd Samples.after_mixed).
Proof.
  pose (selected := InvoiceTab.handleFilesSelected Scripted.batch3 InvoiceTab.initial).
  assert (H1 : InvoiceTab.reachable (P := Scripted.platform) (selected, Scripted.mixed)).
  { eapply InvoiceTab.reachable_step.
    - apply (InvoiceTab.reachable_initial (P := Scripted.platform) Scripted.mixed).
    - apply (InvoiceTab.step_select (P := Scripted.platform)
               InvoiceTab.initial Scripted.mixed Scripted.batch3).
      discriminate. }
  assert (H2 : InvoiceTab.reachable (P := Scripted.platform)
                 (InvoiceTab.processing_state selected, Scripted.mixed)).
  { eapply InvoiceTab.reachable_step; [exact H1 |].
    apply (InvoiceTab.step_started (P := Scripted.platform) selected Scripted.mixed);
      discriminate. }
  eapply InvoiceTab.reachable_step; [exact H2 |].
  refine (InvoiceTab.step_completed (P := Scripted.platform)
            (newInvoices := InvoiceTab.invoices (fst Samples.after_mixed))
            (w' := snd Samples.after_mixed)
            (InvoiceTab.processing_state selected) Scripted.mixed eq_refl _).
  vm_compute. reflexivity.
Qed.

Lemma X10_records_never_null_where_defaulted_witness :
  Forall InvoiceTabView.well_formed (InvoiceTab.invoices (fst Samples.after_mixed)).
Proof.
  exact (proj1 (X10_records_never_null_where_defaulted Scripted.platform)
           _ _ after_mixed_reachable).
Defined.

Lemma map_all_ok {A B} (f : A -> Result B) l :
  Forall (fun a => exists b, f a = Ok b) l ->
  exists bs, map_all f l = Ok bs.
Proof.
  induction 1 as [| a l (b & Hb) _ (bs & IH)]; simpl.
  - eexists. reflexivity.
  - rewrite Hb, IH. eexists. reflexivity.
Qed.

Lemma map_all_Forall2 {A B} (f : A -> Result B) l bs :
  map_all f l = Ok bs -> Forall2 (fun a b => f a = Ok b) l bs.
Proof.
  revert bs. induction l as [|a l IH]; simpl; intros bs H.
  - injection H as <-. constructor.
  - destruct (f a) as [b|e] eqn:Hb; [| discriminate].
    destruct (map_all f l) as [bs'|e]; simpl in H; [| discriminate].
    injection H as <-. constructor; [exact Hb | apply IH; reflexivity].
Qed.

Lemma map_all_length {A B} (f : A -> Result B) l bs :
  map_all f l = Ok bs -> List.length bs = List.length l.
Proof.
  intros H. symmetry. eapply Forall2_length. apply map_all_Forall2. exact H.
Qed.

Lemma Forall2_compose {A B C} (Q : A -> B -> Prop) (R : B -> C -> Prop)
      (T : A -> C -> Prop) :
  (forall a b c, Q a b -> R b c -> T a c) ->
  forall l m, Forall2 Q l m -> forall n, Forall2 R m n -> Forall2 T l n.
Proof.
  intros H l m Hlm. induction Hlm as [| a b l m Hab _ IH]; intros n Hmn;
    inversion Hmn; subst; constructor; eauto.
Qed.

(** The cell of a string or [null] field joins as its text. *)
Lemma cell_text N v :
  is_text v = true -> cell_string N (Some (js_or v (JStr ""))) = Ok (field_text v).
Proof.
  destruct v as [| b | q | s | items | props]; try discriminate; intros _.
  - reflexivity.
  - destruct s; reflexivity.
Qed.

(** The cell of a number or [null] amount joins as a printed number. *)
Lemma cell_amount N v :
  is_amount v = true ->
  exists q, cell_string N (Some (js_or v (JNum 0))) = Ok (N q).
Proof.
  destruct v as [| b | q | s | items | props]; try discriminate; intros _.
  - exists 0%Q. reflexivity.
  - unfold js_or. destruct (truthy (JNum q)); eexists; reflexivity.
Qed.

(** The row of an invoice whose fields have the declared types is built
    and joined without an exception. *)
Lemma row_declared N inv :
  InvoiceTabView.declared_types inv = true ->
  exists cells line,
    InvoiceTabView.row N inv = Ok cells /\ join N "," cells = Ok line.
Proof.
  unfold InvoiceTabView.declared_types. intros H.
  apply andb_prop in H. destruct H as [H Hitems].
  apply andb_prop in H. destruct H as [H Htax].
  apply andb_prop in H. destruct H as [H Hcurrency].
  apply andb_prop in H. destruct H as [H Htotal].
  apply andb_prop in H. destruct H as [H Htaxid].
  apply andb_prop in H. destruct H as [H Hsupplier].
  apply andb_prop in H. destruct H as [Hnumber Hdate].
  unfold InvoiceTabView.row, template. cbn [template_rest].
  change (to_string N (js_or (InvoiceData.supplier_name inv) (JStr "")))
    with (rendered N (InvoiceData.supplier_name inv)).
  rewrite (rendered_text N _ Hsupplier).
  destruct (InvoiceData.line_items inv) as [| b | q | s | items | props];
    try discriminate.
  cbn [map_result and_then length_of].
  destruct (cell_amount N _ Htotal) as (total & Ht).
  destruct (cell_amount N _ Htax) as (tax & Hx).
  eexists _, _. split; [reflexivity |].
  unfold join. cbn [map_all].
  rewrite (cell_text N _ Hnumber), (cell_text N _ Hdate), (cell_text N _ Htaxid),
    (cell_text N _ Hcurrency), Ht, Hx.
  reflexivity.
Qed.

(** A row that is built has as many cells as there are headers. *)
Lemma row_cells N inv cells :
  InvoiceTabView.row N inv = Ok cells ->
  List.length cells = List.length InvoiceTabView.headers.
Proof.
  unfold InvoiceTabView.row.
  destruct (template N DQ [(js_or (InvoiceData.supplier_name inv) (JStr ""), DQ)])
    as [supplier|e]; cbn [and_then]; [| discriminate].
  destruct (length_of (InvoiceData.line_items inv)) as [len|e];
    cbn [map_result]; intros H; inversion H. reflexivity.
Qed.

(** A joined line is the join of the texts of its cells. *)
Lemma join_texts N sep cells line :
  join N sep cells = Ok line ->
  exists texts,
    map_all (cell_string N) cells = Ok texts /\
    List.length texts = List.length cells /\
    line = String.concat sep texts.
Proof.
  unfold join. destruct (map_all (cell_string N) cells) as [texts|e] eqn:Ht;
    cbn [map_result]; intros H; inversion H.
  exists texts. split; [reflexivity |].
  split; [exact (map_all_length _ _ Ht) | reflexivity].
Qed.

(** X11.  For results whose fields have the types the interface declares
    (strings or [null], numbers or [null], an array of line items) the
    CSV export runs to its end without throwing.  It downloads nothing
    exactly when there are no results, and otherwise a file named
    [extracted_invoices.csv] of type [text/csv;charset=utf-8;]. *)
Theorem X11_csv_export_never_throws :
  forall (N : Q -> string) st,
    Forall (fun inv => InvoiceTabView.declared_types inv = true)
           (InvoiceTab.invoices st) ->
    exists d,
      InvoiceTabView.handleDownloadCSV N st = Ok d /\
      (d = None <-> InvoiceTab.invoices st = []) /\
      (forall file,
          d = Some file ->
          InvoiceTabView.download file = "extracted_invoices.csv" /\
          InvoiceTabView.blob_type file = "text/csv;charset=utf-8;").
Proof.
  intros N st Htyped.
  unfold InvoiceTabView.handleDownloadCSV.
  destruct (InvoiceTab.invoices st) as [|inv invs] eqn:Hi.
  - exists None. split; [reflexivity |]. split; [tauto | discriminate].
  - cbn [List.length Nat.eqb].
    assert (Hrows : exists rows lines,
               map_all (InvoiceTabView.row N) (inv :: invs) = Ok rows /\
               map_all (join N ",") rows = Ok lines).
    { clear Hi. induction Htyped as [| a l Ha _ IH].
      - exists [], []. split; reflexivity.
      - destruct IH as (rows & lines & Hr & Hl).
        destruct (row_declared N a Ha) as (cells & line & Hc & Hj).
        exists (cells :: rows), (line :: lines).
        cbn [map_all]. rewrite Hc, Hr. cbn [map_result map_all].
        rewrite Hj, Hl. split; reflexivity. }
    destruct Hrows as (rows & lines & Hr & Hl).
    rewrite Hr. cbn [and_then]. unfold InvoiceTabView.csvContent.
    rewrite Hl. cbn [map_result].
    eexists. split; [reflexivity |].
    split; [split; discriminate |].
    intros file H. injection H as <-. split; reflexivity.
Qed.

Lemma X11_csv_export_never_throws_witness :
  exists d,
    InvoiceTabView.handleDownloadCSV Samples.print_number (fst Samples.after_mixed)
    = Ok d /\
    (d = None <-> InvoiceTab.invoices (fst Samples.after_mixed) = []) /\
    (forall file,
        d = Some file ->
        InvoiceTabView.download file = "extracted_invoices.csv" /\
        InvoiceTabView.blob_type file = "text/csv;charset=utf-8;").
Proof.
  apply (X11_csv_export_never_throws Samples.print_number (fst Samples.after_mixed)).
  repeat constructor.
Defined.

Lemma header_line_without_LF : occurs "010" InvoiceTabView.header_line = false.
Proof. reflexivity. Qed.

(** X12.  Whenever the CSV export downloads a file, its text is the
    header line followed, after line feeds, by one line per invoice in the
    order of the results.  The line of an invoice is the join by commas of
    the texts of the cells of its row, as many as there are headers; when
    none of these texts holds a comma, splitting the line at commas gives
    exactly these texts, one per header.  When no line holds a line feed,
    splitting the text at line feeds gives exactly the header line and the
    lines. *)
Theorem X12_csv_layout :
  forall (N : Q -> string) st file,
    InvoiceTabView.handleDownloadCSV N st = Ok (Some file) ->
    exists lines,
      List.length lines = List.length (InvoiceTab.invoices st) /\
      InvoiceTabView.blob_text file
      = String.concat LF (InvoiceTabView.header_line :: lines) /\
      Forall2 (fun inv line =>
                 exists cells texts,
                   InvoiceTabView.row N inv = Ok cells /\
                   map_all (cell_string N) cells = Ok texts /\
                   List.length texts = List.length InvoiceTabView.headers /\
                   line = String.concat "," texts /\
                   (Forall (fun t => occurs "," t = false) texts ->
                    split "," line = texts /\
                    List.length (split "," line)
                    = List.length InvoiceTabView.headers))
              (InvoiceTab.invoices st) lines /\
      (Forall (fun line => occurs "010" line = false) lines ->
       split "010" (InvoiceTabView.blob_text file)
       = InvoiceTabView.header_line :: lines).
Proof.
  intros N st file. unfold InvoiceTabView.handleDownloadCSV.
  destruct (List.length (InvoiceTab.invoices st) =? 0)%nat; [discriminate |].
  destruct (map_all (InvoiceTabView.row N) (InvoiceTab.invoices st))
    as [rows|e] eqn:Hrows; cbn [and_then]; [| discriminate].
  unfold InvoiceTabView.csvContent.
  destruct (map_all (join N ",") rows) as [lines|e] eqn:Hlines;
    cbn [map_result]; [| discriminate].
  intros H. injection H as <-. cbn [InvoiceTabView.blob_text].
  exists lines.
  split.
  { rewrite (map_all_length _ _ Hlines). exact (map_all_length _ _ Hrows). }
  split; [reflexivity |].
  split.
  { pose proof (map_all_Forall2 _ _ Hrows) as Frows.
    pose proof (map_all_Forall2 _ _ Hlines) as Flines.
    refine (@Forall2_compose _ _ _ _ _ _ _ _ _ Frows _ Flines).
    intros inv cells line Hrow Hjoin.
    destruct (join_texts _ _ _ Hjoin) as (texts & Ht & Hlen & ->).
    assert (H8 : List.length texts = List.length InvoiceTabView.headers).
    { rewrite Hlen. exact (row_cells _ _ Hrow). }
    exists cells, texts.
    split; [exact Hrow |]. split; [exact Ht |]. split; [exact H8 |].
    split; [reflexivity |].
    intros Hcomma.
    assert (Hs : split "," (String.concat "," texts) = texts).
    { apply split_concat; [| exact Hcomma].
      intros ->. discriminate H8. }
    split; [exact Hs | rewrite Hs; exact H8]. }
  intros Hlf.
  change (split "010" (String.concat (String "010" "")
                                     (InvoiceTabView.header_line :: lines))
          = InvoiceTabView.header_line :: lines).
  apply split_concat; [discriminate |].
  constructor; [exact header_line_without_LF | exact Hlf].
Qed.

Lemma X12_csv_layout_witness :
  InvoiceTabView.handleDownloadCSV Samples.print_number Samples.two_invoices
  = Ok (Some Samples.two_invoices_csv) /\
  exists lines,
    List.length lines = 2 /\
    InvoiceTabView.blob_text Samples.two_invoices_csv
    = String.concat LF (InvoiceTabView.header_line :: lines).
Proof.
  assert (H : InvoiceTabView.handleDownloadCSV Samples.print_number
                                               Samples.two_invoices
              = Ok (Some Samples.two_invoices_csv)).
  { vm_compute. reflexivity. }
  split; [exact H |].
  destruct (X12_csv_layout Samples.print_number Samples.two_invoices H)
    as (lines & Hlen & Htext & _).
  exists lines. split; [exact Hlen | exact Htext].
Defined.

(** X13.  A queue is processed once: after [processFiles] has run over a
    non-empty queue, calling it again without a new selection makes no
    model call and adds no record; it leaves the world and the results as
    they are and only sets the "Please upload ..." message. *)
Theorem X13_no_reprocessing :
  forall (P : Platform),
    (forall st (w : World P) st1 w1,
        InvoiceTab.files st <> [] ->
        InvoiceTab.processFiles st w = (Ok st1, w1) ->
        InvoiceTab.processFiles st1 w1
        = (Ok (InvoiceTab.setErrorMsg
                 (Some "Please upload at least one invoice file first.") st1), w1)) /\
    (forall st (w : World P) st1 w1,
        BusinessCardTab.files st <> [] ->
        BusinessCardTab.processFiles st w = (Ok st1, w1) ->
        BusinessCardTab.processFiles st1 w1
        = (Ok (BusinessCardTab.setErrorMsg
                 (Some "Please upload at least one business card.") st1), w1)).
Proof.
  intros P. split; intros st w st1 w1 Hne Hrun.
  - destruct (invoice_processFiles_run st w Hne) as (recs & w' & _ & Hp & _).
    rewrite Hp in Hrun. injection Hrun as <- <-.
    apply invoice_processFiles_empty. reflexivity.
  - destruct (card_processFiles_run st w Hne) as (recs & w' & _ & Hp & _).
    rewrite Hp in Hrun. injection Hrun as <- <-.
    apply card_processFiles_empty. reflexivity.
Qed.

Lemma X13_no_reprocessing_witness :
  InvoiceTab.processFiles (P := Scripted.platform)
    (fst Samples.after_mixed) (snd Samples.after_mixed)
  = (Ok (InvoiceTab.setErrorMsg
           (Some "Please upload at least one invoice file first.")
           (fst Samples.after_mixed)), snd Samples.after_mixed).
Proof.
  refine (proj1 (X13_no_reprocessing Scripted.platform)
            (InvoiceTab.handleFilesSelected Scripted.batch3 InvoiceTab.initial)
            Scripted.mixed _ _ _ _).
  - discriminate.
  - vm_compute. reflexivity.
Defined.
